(** * wasm_challenge: the seven-digit verification chain of [src/main.c]

    A shallow embedding of the C program and of the JavaScript snippets it
    runs through [EM_ASM]: the three C globals, the two [console] slots the
    snippets rewrite, the embedded WebAssembly payloads (kept byte for byte
    and run by a small interpreter of the binary format) and the seven digit
    handlers. *)

From Stdlib Require Import ZArith List String Ascii Bool Lia.
Import ListNotations.
Open Scope Z_scope.

(** ** Machine integers and bytes *)

Module Int.

(** A C [int] (and a WebAssembly i32 seen as signed): 32 bits, two's
    complement. *)
Definition wrap32 (z : Z) : Z := (z + 2147483648) mod 4294967296 - 2147483648.

Definition int32 (z : Z) : Prop := -2147483648 <= z < 2147483648.

(** [a - b] on [int], as the compiled code computes it. *)
Definition sub32 (a b : Z) : Z := wrap32 (a - b).

(** A WebAssembly i32 seen as unsigned. *)
Definition u32 (z : Z) : Z := z mod 4294967296.

(** One byte of memory, and a store into a [Uint8Array]. *)
Definition uint8 (z : Z) : Z := z mod 256.

Definition byte (z : Z) : Prop := 0 <= z < 256.

(** Reading a byte as a C [char] (signed with this toolchain); also what
    [getValue(ptr)] yields with its default type [i8]. *)
Definition sext8 (b : Z) : Z := if b <? 128 then b else b - 256.

End Int.
Import Int.

(** ** The WebAssembly sandbox

    The host's [WebAssembly.Module] / [WebAssembly.Instance] for the part of
    the binary format the embedded payloads use: the section layout, LEB128
    numbers, the export table and straight-line function bodies made of
    [local.get], [i32.const], [i32.eq], [i32.xor] and [unreachable]. *)

Module Wasm.

Inductive instr : Type :=
| LocalGet (n : nat)
| I32Const (c : Z)
| I32Eq
| I32Xor
| Unreachable.

Inductive result : Type :=
| Returned (v : Z)    (* the exported function returned an i32 *)
| TrapExecuted        (* RuntimeError: unreachable executed *)
| InvalidModule.      (* CompileError / LinkError / missing export *)

(** Unsigned and signed LEB128. *)
Fixpoint leb_u (bs : list Z) : option (Z * list Z) :=
  match bs with
  | [] => None
  | b :: r =>
      if b <? 128 then Some (b, r)
      else match leb_u r with
           | Some (n, r') => Some (b - 128 + 128 * n, r')
           | None => None
           end
  end.

Fixpoint leb_s (bs : list Z) : option (Z * list Z) :=
  match bs with
  | [] => None
  | b :: r =>
      if b <? 128 then Some (if b <? 64 then b else b - 128, r)
      else match leb_s r with
           | Some (n, r') => Some (b - 128 + 128 * n, r')
           | None => None
           end
  end.

(** [take_n n bs]: the first [n] bytes and the rest, if there are [n]. *)
Definition take_n (n : Z) (bs : list Z) : option (list Z * list Z) :=
  let k := Z.to_nat n in
  if (Nat.leb k (List.length bs) && (0 <=? n))%bool
  then Some (firstn k bs, skipn k bs) else None.

(** A vector: a count followed by that many items. *)
Fixpoint items {A} (item : list Z -> option (A * list Z)) (n : nat)
         (bs : list Z) : option (list A * list Z) :=
  match n with
  | O => Some ([], bs)
  | S n' =>
      match item bs with
      | Some (a, r) =>
          match items item n' r with
          | Some (l, r') => Some (a :: l, r')
          | None => None
          end
      | None => None
      end
  end.

Definition vec {A} (item : list Z -> option (A * list Z)) (bs : list Z)
  : option (list A * list Z) :=
  match leb_u bs with
  | Some (n, r) => items item (Z.to_nat n) r
  | None => None
  end.

Definition one_byte (bs : list Z) : option (Z * list Z) :=
  match bs with
  | b :: r => Some (b, r)
  | [] => None
  end.

(** Type section: [0x60], parameter types, result types. *)
Definition functype (bs : list Z) : option ((nat * nat) * list Z) :=
  match bs with
  | 96 :: r =>
      match vec one_byte r with
      | Some (ps, r1) =>
          match vec one_byte r1 with
          | Some (rs, r2) => Some ((List.length ps, List.length rs), r2)
          | None => None
          end
      | None => None
      end
  | _ => None
  end.

(** Export section: name, kind ([0] is a function), index. *)
Definition export (bs : list Z) : option ((list Z * Z * Z) * list Z) :=
  match vec one_byte bs with
  | Some (name, kind :: r) =>
      match leb_u r with
      | Some (idx, r') => Some ((name, kind, idx), r')
      | None => None
      end
  | _ => None
  end.

(** Code section: each entry is a size and that many bytes. *)
Definition code_entry (bs : list Z) : option (list Z * list Z) :=
  match leb_u bs with
  | Some (n, r) => take_n n r
  | None => None
  end.

Record module : Type := {
  types : list (nat * nat);
  funcs : list Z;
  exports : list (list Z * Z * Z);
  codes : list (list Z)
}.

Definition empty : module :=
  {| types := []; funcs := []; exports := []; codes := [] |}.

(** A section's content must be consumed entirely. *)
Definition whole {A} (p : option (A * list Z)) : option A :=
  match p with
  | Some (a, []) => Some a
  | _ => None
  end.

Definition section (id : Z) (content : list Z) (m : module) : option module :=
  match id with
  | 1 => match whole (vec functype content) with
         | Some ts => Some {| types := ts; funcs := funcs m;
                              exports := exports m; codes := codes m |}
         | None => None
         end
  | 3 => match whole (vec leb_u content) with
         | Some fs => Some {| types := types m; funcs := fs;
                              exports := exports m; codes := codes m |}
         | None => None
         end
  | 7 => match whole (vec export content) with
         | Some es => Some {| types := types m; funcs := funcs m;
                              exports := es; codes := codes m |}
         | None => None
         end
  | 10 => match whole (vec code_entry content) with
          | Some cs => Some {| types := types m; funcs := funcs m;
                               exports := exports m; codes := cs |}
          | None => None
          end
  | 0 | 4 | 5 | 6 => Some m
  | _ => None
  end.

Fixpoint sections (fuel : nat) (bs : list Z) (m : module) : option module :=
  match bs with
  | [] => Some m
  | id :: r =>
      match fuel with
      | O => None
      | S fuel' =>
          match leb_u r with
          | Some (n, r1) =>
              match take_n n r1 with
              | Some (content, r2) =>
                  match section id content m with
                  | Some m' => sections fuel' r2 m'
                  | None => None
                  end
              | None => None
              end
          | None => None
          end
      end
  end.

(** [\0asm], version 1, then the sections. *)
Definition parse (bs : list Z) : option module :=
  match bs with
  | 0 :: 97 :: 115 :: 109 :: 1 :: 0 :: 0 :: 0 :: r =>
      sections (List.length r) r empty
  | _ => None
  end.

(** A function body without its local declarations. *)
Fixpoint decode (fuel : nat) (bs : list Z) : option (list instr) :=
  match fuel with
  | O => None
  | S fuel' =>
      match bs with
      | [11] => Some []
      | 0 :: r =>
          option_map (cons Unreachable) (decode fuel' r)
      | 32 :: r =>
          match leb_u r with
          | Some (n, r') => option_map (cons (LocalGet (Z.to_nat n))) (decode fuel' r')
          | None => None
          end
      | 65 :: r =>
          match leb_s r with
          | Some (c, r') => option_map (cons (I32Const c)) (decode fuel' r')
          | None => None
          end
      | 70 :: r => option_map (cons I32Eq) (decode fuel' r)
      | 115 :: r => option_map (cons I32Xor) (decode fuel' r)
      | _ => None
      end
  end.

(** Local declarations: groups of (count, type). *)
Definition local_group (bs : list Z) : option (Z * list Z) :=
  match leb_u bs with
  | Some (n, _ :: r) => Some (n, r)
  | _ => None
  end.

Record func : Type := {
  nparams : nat;
  nlocals : nat;
  body : list instr
}.

Definition name_of (s : string) : list Z :=
  map (fun a => Z.of_nat (nat_of_ascii a)) (list_ascii_of_string s).

Definition names_eqb (a b : list Z) : bool :=
  if list_eq_dec Z.eq_dec a b then true else false.

Definition find_export (m : module) (name : list Z) : option Z :=
  match find (fun e => (names_eqb (fst (fst e)) name && (snd (fst e) =? 0))%bool)
             (exports m) with
  | Some e => Some (snd e)
  | None => None
  end.

(** [new WebAssembly.Module(bytes)], [new WebAssembly.Instance(module)]
    and the lookup [exports.name]. *)
Definition load (bs : list Z) (name : string) : option func :=
  match parse bs with
  | None => None
  | Some m =>
      match find_export m (name_of name) with
      | None => None
      | Some idx =>
          let i := Z.to_nat idx in
          match nth_error (funcs m) i, nth_error (codes m) i with
          | Some ty, Some code =>
              match nth_error (types m) (Z.to_nat ty), vec local_group code with
              | Some (np, _), Some (groups, instrs) =>
                  match decode (List.length instrs) instrs with
                  | Some ins =>
                      Some {| nparams := np;
                              nlocals := Z.to_nat (fold_right Z.add 0 groups);
                              body := ins |}
                  | None => None
                  end
              | _, _ => None
              end
          | _, _ => None
          end
      end
  end.

(** Running a straight-line body: the value on top of the stack at [end]
    is the result. *)
Fixpoint exec (ins : list instr) (locals stack : list Z) : result :=
  match ins with
  | [] => match stack with
          | v :: _ => Returned (wrap32 v)
          | [] => InvalidModule
          end
  | Unreachable :: _ => TrapExecuted
  | LocalGet n :: r =>
      match nth_error locals n with
      | Some v => exec r locals (v :: stack)
      | None => InvalidModule
      end
  | I32Const c :: r => exec r locals (u32 c :: stack)
  | I32Eq :: r =>
      match stack with
      | b :: a :: st => exec r locals ((if a =? b then 1 else 0) :: st)
      | _ => InvalidModule
      end
  | I32Xor :: r =>
      match stack with
      | b :: a :: st => exec r locals (Z.lxor a b :: st)
      | _ => InvalidModule
      end
  end.

(** Calling an export with one JavaScript number: it is converted to i32,
    missing parameters are zero. *)
Definition call (f : func) (arg : Z) : result :=
  let params := firstn (nparams f) (u32 arg :: repeat 0 (nparams f)) in
  exec (body f) (params ++ repeat 0 (nlocals f)) [].

Definition invoke (bs : list Z) (name : string) (arg : Z) : result :=
  match load bs name with
  | Some f => call f arg
  | None => InvalidModule
  end.

End Wasm.

(** ** The embedded payloads *)

Module Payload.

(** [__syscall72]: the Uint8Array literal of the JavaScript snippet. *)
Definition wasm72 : list Z :=
  [0;97;115;109;1;0;0;0;1;134;128;128;128;0;1;96;1;127;1;127;3;130;
   128;128;128;0;1;0;4;132;128;128;128;0;1;112;0;0;5;131;128;128;
   128;0;1;0;1;6;129;128;128;128;0;0;7;146;128;128;128;0;2;6;109;
   101;109;111;114;121;2;0;5;111;104;95;110;111;0;0;10;141;128;128;
   128;0;1;135;128;128;128;0;0;32;0;65;9;70;11].

(** [__syscall42]: [const char wasm[43]]. *)
Definition wasm42 : list Z :=
  [0x00; 0x61; 0x73; 0x6d; 0x01; 0x00; 0x00; 0x00; 0x01; 0x06; 0x01; 0x60;
   0x01; 0x7f; 0x01; 0x7f; 0x03; 0x02; 0x01; 0x00; 0x07; 0x0a; 0x01; 0x06;
   0x5f; 0x6f; 0x68; 0x5f; 0x6e; 0x6f; 0x00; 0x00; 0x0a; 0x09; 0x01; 0x07;
   0x00; 0x20; 0x00; 0x41; 0x04; 0x46; 0x0b].

(** [__syscall18]: [char wasm[97]], obfuscated. *)
Definition wasm18 : list Z :=
  [170;203;217;199;171;170;170;170;171;44;42;42;42;170;171;202;
   171;213;171;213;169;40;42;42;42;170;171;170;174;46;42;42;
   42;170;171;218;170;170;175;41;42;42;42;170;171;170;171;172;
   43;42;42;42;170;170;173;56;42;42;42;170;168;172;199;207;
   199;197;216;211;168;170;175;197;194;245;196;197;170;170;160;39;
   42;42;42;170;171;45;42;42;42;170;170;138;170;235;173;236;
   161].

(** [the_end]: the decoding module [xor_decode] and the obfuscated
    [wasmCode]. *)
Definition xor_decode : list Z :=
  [0;97;115;109;1;0;0;0;1;134;128;128;128;0;1;96;
   1;127;1;127;3;130;128;128;128;0;1;0;4;132;128;
   128;128;0;1;112;0;0;5;131;128;128;128;0;1;0;1;
   6;129;128;128;128;0;0;7;147;128;128;128;0;2;6;
   109;101;109;111;114;121;2;0;6;108;111;108;119;
   97;116;0;0;10;142;128;128;128;0;1;136;128;128;
   128;0;0;32;0;65;187;1;115;11].

Definition wasmCode : list Z :=
  [187;218;200;214;186;187;187;187;186;61;59;59;59;187;186;219;
   186;196;186;196;184;57;59;59;59;187;186;187;191;63;59;59;
   59;187;186;203;187;187;190;56;59;59;59;187;186;187;186;189;
   58;59;59;59;187;187;188;47;59;59;59;187;185;189;214;222;
   214;212;201;194;185;187;188;204;222;207;200;218;213;223;187;187;
   177;54;59;59;59;187;186;60;59;59;59;187;187;155;187;250;
   191;253;176].

(** [the_end]: [unsigned char __lol_wasm[43]]. *)
Definition __lol_wasm : list Z :=
  [0x00; 0x61; 0x73; 0x6d; 0x01; 0x00; 0x00; 0x00; 0x01; 0x06; 0x01; 0x60;
   0x01; 0x7f; 0x01; 0x7f; 0x03; 0x02; 0x01; 0x00; 0x07; 0x0e; 0x01; 0x0a;
   0x5f; 0x73; 0x74; 0x61; 0x67; 0x65; 0x5f; 0x6f; 0x6e; 0x65; 0x00; 0x00;
   0x0a; 0x05; 0x01; 0x03; 0x00; 0x00; 0x0b].

End Payload.

(** ** [atob]: the base64 decoding the final script applies to its text *)

Module Base64.

Definition sextet (a : ascii) : option Z :=
  let n := Z.of_nat (nat_of_ascii a) in
  if ((65 <=? n) && (n <=? 90))%bool then Some (n - 65)
  else if ((97 <=? n) && (n <=? 122))%bool then Some (n - 71)
  else if ((48 <=? n) && (n <=? 57))%bool then Some (n + 4)
  else if n =? 43 then Some 62
  else if n =? 47 then Some 63
  else None.

Definition chr (z : Z) : ascii := ascii_of_nat (Z.to_nat (z mod 256)).

Definition pad : ascii := "="%char.

Fixpoint decode (l : list ascii) : option (list ascii) :=
  match l with
  | [] => Some []
  | a :: b :: c :: d :: r =>
      match sextet a, sextet b with
      | Some x, Some y =>
          let b1 := chr (x * 4 + y / 16) in
          if Ascii.eqb c pad then
            if (Ascii.eqb d pad && match r with [] => true | _ => false end)%bool
            then Some [b1] else None
          else
            match sextet c with
            | Some z =>
                let b2 := chr (y * 16 + z / 4) in
                if Ascii.eqb d pad then
                  match r with [] => Some [b1; b2] | _ => None end
                else
                  match sextet d, decode r with
                  | Some t, Some rest => Some (b1 :: b2 :: chr (z * 64 + t) :: rest)
                  | _, _ => None
                  end
            | None => None
            end
      | _, _ => None
      end
  | _ => None
  end.

Definition atob (s : string) : option string :=
  option_map string_of_list_ascii (decode (list_ascii_of_string s)).

End Base64.

(** ** The program state and its host *)

(** The seven exported digit handlers, in the order of the chain. *)
Inductive Handler : Type :=
| Syscall80 | Syscall72 | Syscall42 | Syscall18 | TheEnd | Syscall12 | Syscall188.

(** What a [console] slot can hold: a function of the browser, or the
    wrapper [function(param) { Module.ccall(h, 'void', ['number'], [param]) }]
    one of the snippets assigned. *)
Inductive JsFun : Type :=
| NativeLog
| NativeAssert
| Wrapper (h : Handler).

(** What the program does that an observer can see, oldest first. *)
Inductive Event : Type :=
| EvDebugger                              (* the [debugger] statement ran *)
| EvSourceCompare (same : bool)           (* ASM_CONSTS[0].toString() was compared *)
| EvValidate (h : Handler) (v result : Z) (* the digit test of [h] was evaluated *)
| EvTrapModule                            (* __lol_wasm was instantiated and called *)
| EvRunScript (script : string)           (* emscripten_run_script *)
| EvAlert (message : string)              (* alert(...) inside a snippet *)
| EvExit.                                 (* exit(0) *)

(** The host: the wall clock as the sequence of values successive calls of
    [time(NULL)] return, the text [ASM_CONSTS[0].toString()] yields when it
    is asked after that many clock readings, and the address of the stack
    array [__lol_wasm]. *)
Record World : Type := {
  clock : nat -> Z;
  asm_const0 : nat -> string;
  lol_wasm_ptr : Z
}.

Record State : Type := {
  first_press : Z;          (* static int first_press *)
  g_func_ptr : Z;           (* static void ( *g_func_ptr)(), a table index *)
  log_stored : Z;           (* static int log_stored *)
  console_log : JsFun;      (* window['console']['log'] *)
  console_assert : JsFun;   (* window['console']['assert'] *)
  ticks : nat;              (* clock readings taken so far *)
  trace : list Event
}.

(** How a call into the program ends. *)
Inductive Outcome : Type :=
| Done (s : State)      (* the function returned *)
| Trapped (s : State)   (* indirect call through an index with no function *)
| Threw (s : State)     (* a snippet threw and nothing caught it *)
| Exited (s : State).   (* exit(0) *)

Definition set_first_press (t : Z) (s : State) : State :=
  {| first_press := t; g_func_ptr := g_func_ptr s; log_stored := log_stored s;
     console_log := console_log s; console_assert := console_assert s;
     ticks := ticks s; trace := trace s |}.

Definition set_g_func_ptr (p : Z) (s : State) : State :=
  {| first_press := first_press s; g_func_ptr := p; log_stored := log_stored s;
     console_log := console_log s; console_assert := console_assert s;
     ticks := ticks s; trace := trace s |}.

Definition set_log_stored (b : Z) (s : State) : State :=
  {| first_press := first_press s; g_func_ptr := g_func_ptr s; log_stored := b;
     console_log := console_log s; console_assert := console_assert s;
     ticks := ticks s; trace := trace s |}.

Definition set_console_log (f : JsFun) (s : State) : State :=
  {| first_press := first_press s; g_func_ptr := g_func_ptr s;
     log_stored := log_stored s;
     console_log := f; console_assert := console_assert s;
     ticks := ticks s; trace := trace s |}.

Definition set_console_assert (f : JsFun) (s : State) : State :=
  {| first_press := first_press s; g_func_ptr := g_func_ptr s;
     log_stored := log_stored s;
     console_log := console_log s; console_assert := f;
     ticks := ticks s; trace := trace s |}.

Definition tick (s : State) : State :=
  {| first_press := first_press s; g_func_ptr := g_func_ptr s;
     log_stored := log_stored s;
     console_log := console_log s; console_assert := console_assert s;
     ticks := S (ticks s); trace := trace s |}.

Definition emit (e : Event) (s : State) : State :=
  {| first_press := first_press s; g_func_ptr := g_func_ptr s;
     log_stored := log_stored s;
     console_log := console_log s; console_assert := console_assert s;
     ticks := ticks s; trace := trace s ++ [e] |}.

(** The globals as the C file initialises them, in a page nobody touched. *)
Definition initial : State :=
  {| first_press := 0; g_func_ptr := 0; log_stored := 0;
     console_log := NativeLog; console_assert := NativeAssert;
     ticks := 0; trace := [] |}.

(** The literals of the source. *)
Definition expected_source : string := "function(){debugger}".

Definition program_name : string := "./this.program".

Definition success_script : string :=
  "eval(atob('YWxlcnQoJ0dvb2Qgam9iISBZb3UgZGlkIGl0ISBZb3VyIHByaXplIGlzIHRoZSBzYXRpc2ZhY3Rpb24gb2YgYSBqb2Igd2VsbCBkb25lLiBDb25ncmF0cyEnKTs='))".

Definition dead_alert : string :=
  "Whoa! You got it! Email the 7 digit code to solvedthechallenge@tenable.com".

(** The answer of the file's header, digit by digit. *)
Definition answer (h : Handler) : Z :=
  match h with
  | Syscall80 => 1 | Syscall72 => 9 | Syscall42 => 4 | Syscall18 => 7
  | TheEnd => 4 | Syscall12 => 8 | Syscall188 => 2
  end.

(** ** The obfuscation loop of [__syscall18] and the array hand-over *)

(** [wasm[i] = (wasm[i] ^ key) & 0xff] on one [char] cell, the cell kept as
    its memory byte. *)
Definition xor_char (key b : Z) : Z := uint8 (Z.land (Z.lxor (sext8 b) key) 255).

Definition deobfuscate (key : Z) (bs : list Z) : list Z := map (xor_char key) bs.

(** [wasm_array[i] = getValue(ptr + i)] for every cell of a C array. *)
Definition read_c_array (bs : list Z) : list Z := map (fun b => uint8 (sext8 b)) bs.

(** [wasmCode[i] = xor_instance.exports.lolwat(wasmCode[i])] for every cell
    of the Uint8Array; [None] when a call does not return. *)
Fixpoint oracle_decode (lolwat : Wasm.func) (bs : list Z) : option (list Z) :=
  match bs with
  | [] => Some []
  | b :: r =>
      match Wasm.call lolwat b, oracle_decode lolwat r with
      | Wasm.Returned x, Some r' => Some (uint8 x :: r')
      | _, _ => None
      end
  end.

(** The first snippet of [the_end]. *)
Definition the_end_check (v : Z) : Wasm.result :=
  match Wasm.load Payload.xor_decode "lolwat" with
  | None => Wasm.InvalidModule
  | Some lolwat =>
      match oracle_decode lolwat Payload.wasmCode with
      | Some code => Wasm.invoke code "wetsand" v
      | None => Wasm.InvalidModule
      end
  end.

(** ** The functions of [main.c] *)

Section Program.

Variable w : World.

(** [time(NULL)], stored in an [int]. *)
Definition time (s : State) : Z * State :=
  (wrap32 (clock w (ticks s)), tick s).

(** [delete window['console']['log'];
     window['console']['log'] = window['console']['assert'];] *)
Definition restore_console (s : State) : State :=
  set_console_log (console_assert s) s.

Definition debugger_check (s : State) : Z * State :=
  let (before, s1) := time s in
  let s2 := emit EvDebugger s1 in
  let (after, s3) := time s2 in
  if negb (sub32 after before =? 0) then
    (1, if log_stored s3 =? 1 then restore_console s3 else s3)
  else (0, s3).

Definition hello (s : State) : State :=
  let (detected, s1) := debugger_check s in
  if detected =? 1 then s1
  else
    let same := String.eqb (asm_const0 w (ticks s1)) expected_source in
    let result := if same then 1 else 0 in
    let s2 := emit (EvSourceCompare same) s1 in
    if negb (result =? 1) then
      if log_stored s2 =? 1 then restore_console s2 else s2
    else
      let s3 := set_log_stored 1 s2 in
      let s4 := set_console_assert (console_log s3) s3 in
      set_console_log (Wrapper Syscall80) s4.

Definition call_me_indirectly (s : State) (p_value : Z) : State :=
  let s1 := emit (EvValidate Syscall80 p_value (if p_value =? 1 then 1 else 0)) s in
  if p_value =? 1 then set_console_log (Wrapper Syscall72) s1
  else hello s1.

(** The table of indirectly callable functions: [call_me_indirectly] sits
    at index one (the comment in [main]); index zero is the null pointer. *)
Definition table (idx : Z) : option (State -> Z -> State) :=
  if idx =? 1 then Some call_me_indirectly else None.

Definition __syscall80 (s : State) (p_value : Z) : Outcome :=
  let (detected, s1) := debugger_check s in
  if detected =? 1 then Done s1
  else
    let (now, s2) := time s1 in
    let s3 := set_first_press now s2 in
    match table (g_func_ptr s3) with
    | Some f => Done (f s3 p_value)
    | None => Trapped s3
    end.

(** The tail shared by the handlers of digits two to four: [next] is the
    handler installed on a match. *)
Definition after_check (h next : Handler) (r : Wasm.result) (s : State)
           (p_value : Z) : Outcome :=
  match r with
  | Wasm.Returned result =>
      let s1 := emit (EvValidate h p_value result) s in
      if result =? 1 then Done (set_console_log (Wrapper next) s1)
      else Done (hello s1)
  | _ => Threw s
  end.

Definition __syscall72 (s : State) (p_value : Z) : Outcome :=
  after_check Syscall72 Syscall42
    (Wasm.invoke Payload.wasm72 "oh_no" p_value) s p_value.

Definition __syscall42 (s : State) (p_value : Z) : Outcome :=
  after_check Syscall42 Syscall18
    (Wasm.invoke (read_c_array Payload.wasm42) "_oh_no" p_value) s p_value.

Definition __syscall18 (s : State) (p_value : Z) : Outcome :=
  let wasm := deobfuscate 0xaa Payload.wasm18 in
  after_check Syscall18 TheEnd
    (Wasm.invoke (read_c_array wasm) "oh_no" p_value) s p_value.

(** The [else] branch of [the_end]: the console is restored, then the
    module made of [unreachable] is run inside [try]. *)
Definition the_end_failure (s : State) : State :=
  let s1 := emit EvTrapModule (restore_console s) in
  match Wasm.invoke (read_c_array Payload.__lol_wasm) "_stage_one" (lol_wasm_ptr w) with
  | Wasm.Returned _ => emit (EvAlert dead_alert) s1
  | _ => s1
  end.

Definition the_end (s : State) (p_value : Z) : Outcome :=
  let (are_you_a_bot, s1) := time s in
  let checked :=
    if sub32 are_you_a_bot (first_press s1) >? 1 then
      match the_end_check p_value with
      | Wasm.Returned r => Some (r, emit (EvValidate TheEnd p_value r) s1)
      | _ => None
      end
    else Some (0, s1) in
  match checked with
  | None => Threw s1
  | Some (result, s2) =>
      if result =? 1 then Done (set_console_log (Wrapper Syscall12) s2)
      else Done (the_end_failure s2)
  end.

Definition syscall12_test (p_value : Z) : bool :=
  ((Z.land p_value 0x03 =? 0) && (Z.land p_value 0x04 =? 0)
   && (Z.shiftr p_value 3 =? 1))%bool.

Definition __syscall12 (s : State) (p_value : Z) : Outcome :=
  let s1 := emit (EvValidate Syscall12 p_value
                    (if syscall12_test p_value then 1 else 0)) s in
  if syscall12_test p_value then Done (set_console_log (Wrapper Syscall188) s1)
  else Done (hello s1).

Definition __syscall188 (s : State) (p_value : Z) : Outcome :=
  let s1 := emit (EvValidate Syscall188 p_value (if p_value =? 2 then 1 else 0)) s in
  let s2 := if p_value =? 2 then emit (EvRunScript success_script) s1 else s1 in
  Done (hello s2).

Definition main (s : State) (p_argc : Z) (argv0 : string) : Outcome :=
  if (negb (p_argc =? 1) || negb (String.eqb argv0 program_name))%bool then
    Exited (emit EvExit (restore_console s))
  else Done (set_g_func_ptr 1 s).

(** The exported function a name designates, applied to its [int]
    parameter. *)
Definition handler (h : Handler) (s : State) (p_value : Z) : Outcome :=
  match h with
  | Syscall80 => __syscall80 s p_value
  | Syscall72 => __syscall72 s p_value
  | Syscall42 => __syscall42 s p_value
  | Syscall18 => __syscall18 s p_value
  | TheEnd => the_end s p_value
  | Syscall12 => __syscall12 s p_value
  | Syscall188 => __syscall188 s p_value
  end.

(** [Module.ccall(name, 'void', ['number'], [param])]: the JavaScript
    number becomes the [int] parameter of the export (ToInt32). *)
Definition ccall (h : Handler) (s : State) (param : Z) : Outcome :=
  handler h s (wrap32 param).

(** A button press: the page calls [console.log(digit)]. *)
Definition press (s : State) (digit : Z) : Outcome :=
  match console_log s with
  | Wrapper h => ccall h s digit
  | NativeLog | NativeAssert => Done s
  end.

Fixpoint presses (s : State) (digits : list Z) : Outcome :=
  match digits with
  | [] => Done s
  | d :: rest =>
      match press s d with
      | Done s' => presses s' rest
      | stopped => stopped
      end
  end.

(** Start-up: the glue calls [main] on the globals as they are
    initialised.  Nothing calls [hello] then: it is a plain static
    function, reached only through the handlers. *)
Definition boot (p_argc : Z) (argv0 : string) : Outcome :=
  main initial p_argc argv0.

End Program.

(** ** Reading the trace *)

Definition is_notify (e : Event) : bool :=
  match e with
  | EvRunScript _ | EvAlert _ => true
  | _ => false
  end.

(** How many times the program displayed a message. *)
Definition notify_count (tr : list Event) : nat :=
  List.length (filter is_notify tr).

Definition is_guard (e : Event) : bool :=
  match e with
  | EvDebugger | EvSourceCompare _ => true
  | _ => false
  end.

Definition is_validate (e : Event) : bool :=
  match e with
  | EvValidate _ _ _ => true
  | _ => false
  end.

(** What the guard finds when it starts at clock reading [n]. *)
Definition inspector_at (w : World) (n : nat) : bool :=
  negb (sub32 (wrap32 (clock w (S n))) (wrap32 (clock w n)) =? 0).

Definition tampered_at (w : World) (n : nat) : bool :=
  negb (String.eqb (asm_const0 w (S (S n))) expected_source).

Definition guard_clean (w : World) (n : nat) : bool :=
  (negb (inspector_at w n) && negb (tampered_at w n))%bool.

(** Three hosts for experiments, all with the guard's source text intact:
    a patient visitor, for whom five seconds pass between the first press
    and the fifth; a page where no time passes; and a page with the
    developer console open from the first press on. *)
Definition slow_world : World :=
  {| clock := fun n => if Nat.ltb n 5 then 1000 else 1005;
     asm_const0 := fun _ => expected_source;
     lol_wasm_ptr := 5242880 |}.

Definition fast_world : World :=
  {| clock := fun _ => 1000;
     asm_const0 := fun _ => expected_source;
     lol_wasm_ptr := 5242880 |}.

Definition inspected_world : World :=
  {| clock := fun n => if Nat.ltb n 3 then 1000 else 1002;
     asm_const0 := fun _ => expected_source;
     lol_wasm_ptr := 5242880 |}.

(** A session: the page loads as the glue launches it, then the digits are
    pressed. *)
Definition session (w : World) (digits : list Z) : Outcome :=
  match boot 1 program_name with
  | Done s => presses w s digits
  | stopped => stopped
  end.

(** The state an outcome leaves behind. *)
Definition outcome_state (o : Outcome) : State :=
  match o with
  | Done s | Trapped s | Threw s | Exited s => s
  end.

(** The events a step added to the trace. *)
Definition events_since (s s' : State) : list Event :=
  skipn (List.length (trace s)) (trace s').

(** Whether the guard was invoked before the first digit test. *)
Fixpoint guard_before_validator (evs : list Event) : bool :=
  match evs with
  | [] => false
  | e :: rest =>
      if is_guard e then true
      else if is_validate e then false
      else guard_before_validator rest
  end.

(** ** Auxiliary definitions for the statements *)

(** The shape shared by the four digit tests:
    [local.get 0; i32.const c; i32.eq]. *)
Definition digit_test (c : Z) : Wasm.func :=
  {| Wasm.nparams := 1; Wasm.nlocals := 0;
     Wasm.body := [Wasm.LocalGet 0; Wasm.I32Const c; Wasm.I32Eq] |}.

(** The state after the two clock readings around [debugger]. *)
Definition probed (s : State) : State := tick (emit EvDebugger (tick s)).

(** What both branches that find something wrong do to the console. *)
Definition neutralized (s : State) : State :=
  if log_stored s =? 1 then restore_console s else s.

(** The timer gate of [the_end]: the reading it takes against
    [first_press]. *)
Definition enough_elapsed (w : World) (s : State) : bool :=
  sub32 (wrap32 (clock w (ticks s))) (first_press s) >? 1.

(** An armed page: [main] has set [g_func_ptr] and [hello] has run once,
    finding nothing. *)
Definition page_loaded : State :=
  {| first_press := 0; g_func_ptr := 1; log_stored := 1;
     console_log := Wrapper Syscall80; console_assert := NativeLog;
     ticks := 2; trace := [EvDebugger; EvSourceCompare true] |}.

(** The armed page after the first digit. *)
Definition after_first_digit : State :=
  {| first_press := 1000; g_func_ptr := 1; log_stored := 1;
     console_log := Wrapper Syscall72; console_assert := NativeLog;
     ticks := 5;
     trace := [EvDebugger; EvSourceCompare true; EvDebugger;
               EvValidate Syscall80 1 1] |}.

(** The armed page of a patient visitor after 1, 9, 4, 7. *)
Definition before_the_end : State :=
  {| first_press := 1000; g_func_ptr := 1; log_stored := 1;
     console_log := Wrapper TheEnd; console_assert := NativeLog;
     ticks := 5;
     trace := [EvDebugger; EvSourceCompare true; EvDebugger;
               EvValidate Syscall80 1 1; EvValidate Syscall72 9 1;
               EvValidate Syscall42 4 1; EvValidate Syscall18 7 1] |}.

(** The armed page of a patient visitor after 1, 9, 4, 7, 4, 8. *)
Definition before_last_digit : State :=
  {| first_press := 1000; g_func_ptr := 1; log_stored := 1;
     console_log := Wrapper Syscall188; console_assert := NativeLog;
     ticks := 6;
     trace := [EvDebugger; EvSourceCompare true; EvDebugger;
               EvValidate Syscall80 1 1; EvValidate Syscall72 9 1;
               EvValidate Syscall42 4 1; EvValidate Syscall18 7 1;
               EvValidate TheEnd 4 1; EvValidate Syscall12 8 1] |}.

(** What one run of the guard inside [hello], started at clock reading
    [n], adds to the trace: the probe, and the comparison of the source
    text when the probe found nothing. *)
Definition guard_events (w : World) (n : nat) : list Event :=
  if inspector_at w n then [EvDebugger]
  else [EvDebugger; EvSourceCompare (negb (tampered_at w n))].

(** ** Definitions for the further properties *)

(** [resets_clean w t k]: in [k] successive wrong first digits, the first
    pressed at clock reading [t], the probe of [__syscall80] and the guard
    of the [hello] that follows find nothing.  A wrong first digit takes
    five clock readings. *)
Fixpoint resets_clean (w : World) (t k : nat) : bool :=
  match k with
  | O => true
  | S k' =>
      (negb (inspector_at w t) && guard_clean w (3 + t)
       && resets_clean w (5 + t) k')%bool
  end.

(** A page where a second passes between every two presses. *)
Definition ticking_world : World :=
  {| clock := fun n => 1000 + Z.of_nat ((n + 3) / 5);
     asm_const0 := fun _ => expected_source;
     lol_wasm_ptr := 5242880 |}.

(** The order of the chain (the list of the file's header); after the last
    handler [hello] installs the first one again. *)
Definition next (h : Handler) : Handler :=
  match h with
  | Syscall80 => Syscall72 | Syscall72 => Syscall42 | Syscall42 => Syscall18
  | Syscall18 => TheEnd | TheEnd => Syscall12 | Syscall12 => Syscall188
  | Syscall188 => Syscall80
  end.

Definition is_last (h : Handler) : bool :=
  match h with
  | Syscall188 => true
  | _ => false
  end.

Definition is_alert (e : Event) : bool :=
  match e with
  | EvAlert _ => true
  | _ => false
  end.

Definition is_wrapper (f : JsFun) : bool :=
  match f with
  | Wrapper _ => true
  | NativeLog | NativeAssert => false
  end.

(** [adds s t n]: [t] has the trace of [s] followed by events among which
    there is no [alert] of a snippet and exactly [n] displayed messages. *)
Definition adds (s t : State) (n : nat) : Prop :=
  exists evs : list Event,
    trace t = trace s ++ evs
    /\ existsb is_alert evs = false
    /\ notify_count evs = n.

(** The four places a step of handler [h] can leave [console.log] in. *)
Definition transition_of (h : Handler) (s s' : State) : Prop :=
  console_log s' = console_log s
  \/ console_log s' = Wrapper (next h)
  \/ console_log s' = Wrapper Syscall80
  \/ console_log s' = console_assert s.

(** The two places a step can leave [console.assert] in. *)
Definition saved_of (s s' : State) : Prop :=
  console_assert s' = console_assert s \/ console_assert s' = console_log s.

(** The page of a visitor who got six digits right, the sixth press aside,
    and started over: after 1, 9, 4, 7, 4, a wrong 3, then 1, 9, 4, 7. *)
Definition second_round : State :=
  {| first_press := 1005; g_func_ptr := 1; log_stored := 1;
     console_log := Wrapper TheEnd; console_assert := Wrapper Syscall12;
     ticks := 11;
     trace := [EvDebugger; EvSourceCompare true; EvDebugger;
               EvValidate Syscall80 1 1; EvValidate Syscall72 9 1;
               EvValidate Syscall42 4 1; EvValidate Syscall18 7 1;
               EvValidate TheEnd 4 1; EvValidate Syscall12 3 0;
               EvDebugger; EvSourceCompare true; EvDebugger;
               EvValidate Syscall80 1 1; EvValidate Syscall72 9 1;
               EvValidate Syscall42 4 1; EvValidate Syscall18 7 1] |}.

(** * Properties *)

(** ** Machine integers *)

Lemma wrap32_small (z : Z) : int32 z -> wrap32 z = z.
Proof. unfold int32, wrap32. intros H. rewrite Z.mod_small; lia. Qed.

(** ** Bytes and the obfuscation loop *)

Lemma sext8_low_bits (b n : Z) :
  0 <= n < 8 -> Z.testbit (sext8 b) n = Z.testbit b n.
Proof.
  intros Hn. unfold sext8. destruct (b <? 128); [reflexivity|].
  rewrite <- (Z.mod_pow2_bits_low (b - 256) 8 n) by lia.
  rewrite <- (Z.mod_pow2_bits_low b 8 n) by lia.
  change (2 ^ 8) with 256.
  replace (b - 256) with (b + (-1) * 256) by ring.
  now rewrite Z_mod_plus_full.
Qed.

Lemma byte_high_bits (b n : Z) : byte b -> 8 <= n -> Z.testbit b n = false.
Proof.
  intros Hb Hn. rewrite <- (Z.mod_small b (2 ^ 8)) by exact Hb.
  apply Z.mod_pow2_bits_high. lia.
Qed.

Lemma mask_bits (x n : Z) :
  0 <= n -> Z.testbit (Z.land x 255) n = (Z.testbit x n && (n <? 8))%bool.
Proof.
  intros Hn. rewrite Z.land_spec. change 255 with (Z.ones 8).
  now rewrite Z.testbit_ones_nonneg by lia.
Qed.

Lemma mask_is_byte (x : Z) : byte (Z.land x 255).
Proof.
  change 255 with (Z.ones 8). rewrite Z.land_ones by lia.
  apply Z.mod_pos_bound. reflexivity.
Qed.

Lemma xor_char_mask (key b : Z) :
  xor_char key b = Z.land (Z.lxor (sext8 b) key) 255.
Proof.
  unfold xor_char, uint8. apply Z.mod_small. apply mask_is_byte.
Qed.

Lemma xor_char_byte (key b : Z) : byte (xor_char key b).
Proof. rewrite xor_char_mask. apply mask_is_byte. Qed.

Lemma xor_char_involutive (key b : Z) :
  byte b -> xor_char key (xor_char key b) = b.
Proof.
  intros Hb. rewrite (xor_char_mask key (xor_char key b)).
  apply Z.bits_inj'. intros n Hn.
  rewrite mask_bits by exact Hn.
  destruct (Z.ltb_spec n 8) as [Hlt|Hge].
  - rewrite Bool.andb_true_r, Z.lxor_spec, sext8_low_bits by lia.
    rewrite xor_char_mask, mask_bits by exact Hn.
    rewrite Z.lxor_spec, sext8_low_bits by lia.
    replace (n <? 8) with true by (symmetry; apply Z.ltb_lt; exact Hlt).
    rewrite Bool.andb_true_r.
    destruct (Z.testbit b n), (Z.testbit key n); reflexivity.
  - rewrite Bool.andb_false_r. symmetry. now apply byte_high_bits.
Qed.

Lemma read_c_array_bytes (bs : list Z) :
  Forall byte bs -> read_c_array bs = bs.
Proof.
  unfold read_c_array. induction 1 as [|b l Hb _ IH]; simpl; [reflexivity|].
  rewrite IH. f_equal. unfold uint8, sext8, byte in *.
  destruct (Z.ltb_spec b 128).
  - apply Z.mod_small. lia.
  - replace (b - 256) with (b + (-1) * 256) by ring.
    rewrite Z_mod_plus_full. apply Z.mod_small. lia.
Qed.

(** C9. The obfuscation codec is an involution: for every sequence of bytes
    and every key, running the loop of [__syscall18]
    ([wasm[i] = (wasm[i] ^ key) & 0xff]) twice with the same key gives the
    sequence back. *)
Theorem xor_decode_involutive (key : Z) (bs : list Z) :
  Forall byte bs -> deobfuscate key (deobfuscate key bs) = bs.
Proof.
  unfold deobfuscate. induction 1 as [|b l Hb _ IH]; simpl.
  - reflexivity.
  - now rewrite xor_char_involutive, IH.
Qed.

Lemma xor_decode_involutive_witness :
  Forall byte [0; 97; 115; 109; 255] /\
  deobfuscate 0xaa (deobfuscate 0xaa [0; 97; 115; 109; 255]) = [0; 97; 115; 109; 255].
Proof.
  assert (H : Forall byte [0; 97; 115; 109; 255])
    by (repeat constructor; unfold byte; lia).
  split; [exact H | exact (xor_decode_involutive 0xaa _ H)].
Defined.

(** ** The payloads inside the sandbox *)

Lemma u32_eqb (v c : Z) :
  int32 v -> 0 <= c < 2147483648 -> (u32 v =? u32 c) = (v =? c).
Proof.
  unfold int32, u32. intros Hv Hc.
  rewrite (Z.mod_small c) by lia.
  destruct (Z_lt_le_dec v 0) as [Hneg|Hpos].
  - replace v with (v + 4294967296 + (-1) * 4294967296) by ring.
    rewrite Z_mod_plus_full, Z.mod_small by lia.
    destruct (Z.eqb_spec (v + 4294967296) c), (Z.eqb_spec (v + 4294967296 + -1 * 4294967296) c);
      try reflexivity; lia.
  - now rewrite Z.mod_small by lia.
Qed.

Lemma digit_test_call (c v : Z) :
  int32 v -> 0 <= c < 2147483648 ->
  Wasm.call (digit_test c) v = Wasm.Returned (if v =? c then 1 else 0).
Proof.
  intros Hv Hc. unfold Wasm.call, digit_test. simpl.
  rewrite (u32_eqb v c Hv Hc). now destruct (v =? c).
Qed.

Lemma load_wasm72 : Wasm.load Payload.wasm72 "oh_no" = Some (digit_test 9).
Proof. vm_compute. reflexivity. Qed.

Lemma load_wasm42 :
  Wasm.load (read_c_array Payload.wasm42) "_oh_no" = Some (digit_test 4).
Proof. vm_compute. reflexivity. Qed.

Lemma load_wasm18 :
  Wasm.load (read_c_array (deobfuscate 0xaa Payload.wasm18)) "oh_no"
  = Some (digit_test 7).
Proof. vm_compute. reflexivity. Qed.

(** The decoding module of [the_end] computes [x ^ 0xbb], and what it
    makes of [wasmCode] is a module that tests for 4. *)
Lemma load_xor_decode :
  Wasm.load Payload.xor_decode "lolwat"
  = Some {| Wasm.nparams := 1; Wasm.nlocals := 0;
            Wasm.body := [Wasm.LocalGet 0; Wasm.I32Const 187; Wasm.I32Xor] |}.
Proof. vm_compute. reflexivity. Qed.

Lemma load_wasmCode :
  match Wasm.load Payload.xor_decode "lolwat" with
  | Some lolwat =>
      match oracle_decode lolwat Payload.wasmCode with
      | Some code => Wasm.load code "wetsand"
      | None => None
      end
  | None => None
  end = Some (digit_test 4).
Proof. vm_compute. reflexivity. Qed.

Lemma load_lol_wasm :
  Wasm.load (read_c_array Payload.__lol_wasm) "_stage_one"
  = Some {| Wasm.nparams := 1; Wasm.nlocals := 0;
            Wasm.body := [Wasm.Unreachable] |}.
Proof. vm_compute. reflexivity. Qed.

Lemma invoke_wasm72 (v : Z) :
  int32 v ->
  Wasm.invoke Payload.wasm72 "oh_no" v = Wasm.Returned (if v =? 9 then 1 else 0).
Proof.
  intros Hv. unfold Wasm.invoke. rewrite load_wasm72.
  apply digit_test_call; [exact Hv | lia].
Qed.

Lemma invoke_wasm42 (v : Z) :
  int32 v ->
  Wasm.invoke (read_c_array Payload.wasm42) "_oh_no" v
  = Wasm.Returned (if v =? 4 then 1 else 0).
Proof.
  intros Hv. unfold Wasm.invoke. rewrite load_wasm42.
  apply digit_test_call; [exact Hv | lia].
Qed.

Lemma invoke_wasm18 (v : Z) :
  int32 v ->
  Wasm.invoke (read_c_array (deobfuscate 0xaa Payload.wasm18)) "oh_no" v
  = Wasm.Returned (if v =? 7 then 1 else 0).
Proof.
  intros Hv. unfold Wasm.invoke. rewrite load_wasm18.
  apply digit_test_call; [exact Hv | lia].
Qed.

Lemma the_end_check_spec (v : Z) :
  int32 v -> the_end_check v = Wasm.Returned (if v =? 4 then 1 else 0).
Proof.
  intros Hv. unfold the_end_check. generalize load_wasmCode.
  destruct (Wasm.load Payload.xor_decode "lolwat") as [lolwat|]; [|discriminate].
  destruct (oracle_decode lolwat Payload.wasmCode) as [code|]; [|discriminate].
  intros Hload. unfold Wasm.invoke. rewrite Hload.
  apply digit_test_call; [exact Hv | lia].
Qed.

Lemma invoke_lol_wasm (arg : Z) :
  Wasm.invoke (read_c_array Payload.__lol_wasm) "_stage_one" arg = Wasm.TrapExecuted.
Proof. unfold Wasm.invoke. rewrite load_lol_wasm. reflexivity. Qed.

(** The decoding module agrees with the C loop: on a byte, [lolwat] is
    the obfuscation with key [0xbb]. *)
Lemma lolwat_is_xor (b : Z) :
  byte b ->
  match Wasm.load Payload.xor_decode "lolwat" with
  | Some lolwat => Wasm.call lolwat b
  | None => Wasm.InvalidModule
  end = Wasm.Returned (Z.lxor b 187).
Proof.
  intros Hb. rewrite load_xor_decode. unfold Wasm.call. simpl.
  unfold u32, byte in *. rewrite Z.mod_small by lia.
  change (187 mod 4294967296) with 187. f_equal.
  assert (Hx : 0 <= Z.lxor b 187 < 256).
  { assert (H0 : 0 <= Z.lxor b 187) by (apply Z.lxor_nonneg; lia).
    split; [exact H0|].
    destruct (Z.eq_dec (Z.lxor b 187) 0) as [E|E]; [lia|].
    apply (Z.log2_lt_pow2 _ 8); [lia|].
    eapply Z.le_lt_trans; [apply Z.log2_lxor; lia|].
    apply Z.max_lub_lt; [|reflexivity].
    destruct (Z.eq_dec b 0) as [->|Hb0]; [reflexivity|].
    apply Z.log2_lt_pow2; lia. }
  unfold wrap32. rewrite Z.mod_small by lia. lia.
Qed.

(** The final script, once [atob] has decoded its argument, is the success
    alert. *)
Lemma success_script_alerts :
  Base64.atob "YWxlcnQoJ0dvb2Qgam9iISBZb3UgZGlkIGl0ISBZb3VyIHByaXplIGlzIHRoZSBzYXRpc2ZhY3Rpb24gb2YgYSBqb2Igd2VsbCBkb25lLiBDb25ncmF0cyEnKTs="
  = Some "alert('Good job! You did it! Your prize is the satisfaction of a job well done. Congrats!');"%string.
Proof. vm_compute. reflexivity. Qed.

(** ** Traces *)

Lemma events_since_app (s s' : State) (evs : list Event) :
  trace s' = trace s ++ evs -> events_since s s' = evs.
Proof.
  intros E. unfold events_since. rewrite E, skipn_app, skipn_all.
  now rewrite Nat.sub_diag.
Qed.

Lemma notify_count_app (tr evs : list Event) :
  notify_count (tr ++ evs) = (notify_count tr + notify_count evs)%nat.
Proof. unfold notify_count. now rewrite filter_app, length_app. Qed.

(** ** The guard *)

Section Guard.

Variable w : World.

Lemma debugger_check_eq (s : State) :
  debugger_check w s =
  if inspector_at w (ticks s) then (1, neutralized (probed s))
  else (0, probed s).
Proof. reflexivity. Qed.

Lemma hello_eq (s : State) :
  hello w s =
  if inspector_at w (ticks s) then neutralized (probed s)
  else
    let s2 := emit (EvSourceCompare (negb (tampered_at w (ticks s)))) (probed s) in
    if tampered_at w (ticks s) then neutralized s2
    else set_console_log (Wrapper Syscall80)
           (set_console_assert (console_log s) (set_log_stored 1 s2)).
Proof.
  unfold hello. rewrite debugger_check_eq.
  destruct (inspector_at w (ticks s)); [reflexivity|].
  unfold tampered_at. simpl.
  destruct (String.eqb (asm_const0 w (S (S (ticks s)))) expected_source);
    reflexivity.
Qed.

Lemma hello_clean (s : State) :
  guard_clean w (ticks s) = true ->
  hello w s =
  {| first_press := first_press s; g_func_ptr := g_func_ptr s;
     log_stored := 1;
     console_log := Wrapper Syscall80; console_assert := console_log s;
     ticks := S (S (ticks s));
     trace := trace s ++ [EvDebugger; EvSourceCompare true] |}.
Proof.
  unfold guard_clean. intros H. apply Bool.andb_true_iff in H as [H1 H2].
  apply Bool.negb_true_iff in H1, H2. rewrite hello_eq, H1, H2.
  unfold set_console_log, set_console_assert, set_log_stored, emit, probed, tick.
  simpl. now rewrite <- app_assoc.
Qed.

Lemma hello_not_clean (s : State) :
  guard_clean w (ticks s) = false ->
  console_log (hello w s)
  = (if log_stored s =? 1 then console_assert s else console_log s)
  /\ console_assert (hello w s) = console_assert s
  /\ log_stored (hello w s) = log_stored s.
Proof.
  unfold guard_clean. intros H. rewrite hello_eq.
  destruct (inspector_at w (ticks s)); simpl in H.
  - unfold neutralized. simpl. destruct (log_stored s =? 1); simpl; auto.
  - apply Bool.negb_false_iff in H. rewrite H. unfold neutralized. simpl.
    destruct (log_stored s =? 1); simpl; auto.
Qed.

(** [hello] writes neither [first_press] nor [g_func_ptr]. *)
Lemma hello_frame (s : State) :
  first_press (hello w s) = first_press s
  /\ g_func_ptr (hello w s) = g_func_ptr s.
Proof.
  rewrite hello_eq. unfold neutralized.
  destruct (inspector_at w (ticks s)); simpl.
  - destruct (log_stored s =? 1); simpl; auto.
  - destruct (tampered_at w (ticks s)); simpl; auto.
    destruct (log_stored s =? 1); simpl; auto.
Qed.

Lemma hello_first_press (s : State) : first_press (hello w s) = first_press s.
Proof. apply hello_frame. Qed.

Lemma hello_g_func_ptr (s : State) : g_func_ptr (hello w s) = g_func_ptr s.
Proof. apply hello_frame. Qed.

(** When the probe finds nothing, [hello] compares the source text, every
    time it runs. *)
Lemma hello_events (s : State) :
  inspector_at w (ticks s) = false ->
  trace (hello w s)
  = trace s ++ [EvDebugger; EvSourceCompare (negb (tampered_at w (ticks s)))].
Proof.
  intros H. rewrite hello_eq, H. unfold neutralized. simpl.
  destruct (tampered_at w (ticks s)); simpl.
  - destruct (log_stored s =? 1); simpl; now rewrite <- app_assoc.
  - now rewrite <- app_assoc.
Qed.

Lemma hello_events_detected (s : State) :
  inspector_at w (ticks s) = true ->
  trace (hello w s) = trace s ++ [EvDebugger].
Proof.
  intros H. rewrite hello_eq, H. unfold neutralized. simpl.
  destruct (log_stored s =? 1); reflexivity.
Qed.

End Guard.

(** ** The handlers, one step at a time *)

Section Steps.

Variable w : World.

Lemma after_check_digit (h next : Handler) (c v : Z) (s : State) :
  after_check w h next (Wasm.Returned (if v =? c then 1 else 0)) s v =
  if v =? c then Done (set_console_log (Wrapper next) (emit (EvValidate h v 1) s))
  else Done (hello w (emit (EvValidate h v 0) s)).
Proof. unfold after_check. destruct (v =? c); reflexivity. Qed.

Lemma syscall72_eq (s : State) (v : Z) :
  int32 v ->
  __syscall72 w s v =
  if v =? 9
  then Done (set_console_log (Wrapper Syscall42) (emit (EvValidate Syscall72 v 1) s))
  else Done (hello w (emit (EvValidate Syscall72 v 0) s)).
Proof.
  intros Hv. unfold __syscall72. rewrite invoke_wasm72 by exact Hv.
  apply after_check_digit.
Qed.

Lemma syscall42_eq (s : State) (v : Z) :
  int32 v ->
  __syscall42 w s v =
  if v =? 4
  then Done (set_console_log (Wrapper Syscall18) (emit (EvValidate Syscall42 v 1) s))
  else Done (hello w (emit (EvValidate Syscall42 v 0) s)).
Proof.
  intros Hv. unfold __syscall42. rewrite invoke_wasm42 by exact Hv.
  apply after_check_digit.
Qed.

Lemma syscall18_eq (s : State) (v : Z) :
  int32 v ->
  __syscall18 w s v =
  if v =? 7
  then Done (set_console_log (Wrapper TheEnd) (emit (EvValidate Syscall18 v 1) s))
  else Done (hello w (emit (EvValidate Syscall18 v 0) s)).
Proof.
  intros Hv. unfold __syscall18. cbv zeta. rewrite invoke_wasm18 by exact Hv.
  apply after_check_digit.
Qed.

Lemma the_end_failure_eq (s : State) :
  the_end_failure w s = emit EvTrapModule (restore_console s).
Proof. unfold the_end_failure. now rewrite invoke_lol_wasm. Qed.

Lemma the_end_fast (s : State) (v : Z) :
  enough_elapsed w s = false ->
  the_end w s v = Done (emit EvTrapModule (restore_console (tick s))).
Proof.
  unfold enough_elapsed. intros H. unfold the_end, time.
  cbv beta iota zeta. change (first_press (tick s)) with (first_press s).
  rewrite H. cbv beta iota. now rewrite the_end_failure_eq.
Qed.

Lemma the_end_slow (s : State) (v : Z) :
  int32 v ->
  enough_elapsed w s = true ->
  the_end w s v =
  if v =? 4
  then Done (set_console_log (Wrapper Syscall12)
               (emit (EvValidate TheEnd v 1) (tick s)))
  else Done (emit EvTrapModule
               (restore_console (emit (EvValidate TheEnd v 0) (tick s)))).
Proof.
  unfold enough_elapsed. intros Hv H. unfold the_end, time.
  cbv beta iota zeta. change (first_press (tick s)) with (first_press s).
  rewrite H, the_end_check_spec by exact Hv.
  destruct (v =? 4); cbv beta iota; [reflexivity|].
  now rewrite the_end_failure_eq.
Qed.

Lemma syscall12_test_spec (v : Z) : syscall12_test v = (v =? 8).
Proof.
  destruct (Z.eqb_spec v 8) as [->|Hne]; [reflexivity|].
  unfold syscall12_test.
  destruct (Z.eqb_spec (Z.shiftr v 3) 1) as [Hs|Hs];
    [|now rewrite Bool.andb_false_r].
  rewrite Z.shiftr_div_pow2 in Hs by lia. change (2 ^ 3) with 8 in Hs.
  assert (Hr : 8 <= v < 16) by (pose proof (Z.div_mod v 8); pose proof (Z.mod_pos_bound v 8); lia).
  assert (Hc : v = 9 \/ v = 10 \/ v = 11 \/ v = 12 \/ v = 13 \/ v = 14 \/ v = 15)
    by lia.
  repeat (destruct Hc as [->|Hc]; [reflexivity|]). subst v. reflexivity.
Qed.

Lemma syscall12_eq (s : State) (v : Z) :
  __syscall12 w s v =
  if v =? 8
  then Done (set_console_log (Wrapper Syscall188) (emit (EvValidate Syscall12 v 1) s))
  else Done (hello w (emit (EvValidate Syscall12 v 0) s)).
Proof.
  unfold __syscall12. rewrite syscall12_test_spec. destruct (v =? 8); reflexivity.
Qed.

Lemma syscall80_clean (s : State) (v : Z) :
  inspector_at w (ticks s) = false ->
  __syscall80 w s v =
  let s3 := set_first_press (wrap32 (clock w (S (S (ticks s))))) (tick (probed s)) in
  if g_func_ptr s =? 1 then Done (call_me_indirectly w s3 v) else Trapped s3.
Proof.
  intros H. unfold __syscall80. rewrite debugger_check_eq, H. simpl.
  unfold table. simpl. destruct (g_func_ptr s =? 1); reflexivity.
Qed.

Lemma syscall80_detected (s : State) (v : Z) :
  inspector_at w (ticks s) = true ->
  __syscall80 w s v = Done (neutralized (probed s)).
Proof.
  intros H. unfold __syscall80. now rewrite debugger_check_eq, H.
Qed.

End Steps.

(** ** Sessions *)

Section Sessions.

Variable w : World.

Lemma press_at (h : Handler) (s : State) (d : Z) :
  console_log s = Wrapper h -> press w s d = ccall w h s d.
Proof. intros H. unfold press. now rewrite H. Qed.

Lemma ccall_int32 (h : Handler) (s : State) (v : Z) :
  int32 v -> ccall w h s v = handler w h s v.
Proof. intros Hv. unfold ccall. now rewrite wrap32_small. Qed.

Lemma presses_cons (s s' : State) (d : Z) (rest : list Z) :
  press w s d = Done s' -> presses w s (d :: rest) = presses w s' rest.
Proof. intros H. simpl. now rewrite H. Qed.

(** Once the console holds a function of the browser again, no press
    reaches the program. *)
Lemma presses_native (s : State) (digits : list Z) :
  console_log s = NativeLog \/ console_log s = NativeAssert ->
  presses w s digits = Done s.
Proof.
  intros H. induction digits as [|d rest IH]; [reflexivity|].
  simpl. unfold press. destruct H as [H|H]; rewrite H; exact IH.
Qed.

End Sessions.

Ltac int32_lit := unfold int32; lia.

(** From a call through [ccall] to the body of the handler. *)
Ltac enter_handler :=
  first [ rewrite ccall_int32 by (first [assumption | unfold int32; lia])
        | unfold ccall ];
  simpl handler.

(** C1. Pressing 1, 9, 4, 7, then (more than one second after the first
    press) 4, then 8, then 2, with the guard finding nothing each time it
    runs, walks the chain to its last handler, whose digit test succeeds,
    and the success script is run exactly once. *)
Theorem winning_sequence_notifies_once (w : World) (s : State) :
  console_log s = Wrapper Syscall80 ->
  g_func_ptr s = 1 ->
  inspector_at w (ticks s) = false ->
  sub32 (wrap32 (clock w (3 + ticks s))) (wrap32 (clock w (2 + ticks s))) > 1 ->
  guard_clean w (4 + ticks s) = true ->
  exists s6 s7 : State,
    presses w s [1; 9; 4; 7; 4; 8] = Done s6
    /\ console_log s6 = Wrapper Syscall188
    /\ notify_count (events_since s s6) = 0%nat
    /\ press w s6 2 = Done s7
    /\ presses w s [1; 9; 4; 7; 4; 8; 2] = Done s7
    /\ events_since s s7
       = [EvDebugger; EvValidate Syscall80 1 1; EvValidate Syscall72 9 1;
          EvValidate Syscall42 4 1; EvValidate Syscall18 7 1;
          EvValidate TheEnd 4 1; EvValidate Syscall12 8 1;
          EvValidate Syscall188 2 1; EvRunScript success_script;
          EvDebugger; EvSourceCompare true]
    /\ notify_count (events_since s s7) = 1%nat
    /\ notify_count (trace s7) = S (notify_count (trace s)).
Proof.
  intros Hlog Hptr Hprobe Hgate Hguard.
  set (s1 := set_console_log (Wrapper Syscall72)
               (emit (EvValidate Syscall80 1 1)
                  (set_first_press (wrap32 (clock w (S (S (ticks s)))))
                     (tick (probed s))))).
  assert (E1 : press w s 1 = Done s1).
  { rewrite (press_at w Syscall80) by exact Hlog. enter_handler.
    rewrite syscall80_clean by exact Hprobe. cbv zeta. now rewrite Hptr. }
  set (s2 := set_console_log (Wrapper Syscall42) (emit (EvValidate Syscall72 9 1) s1)).
  assert (E2 : press w s1 9 = Done s2).
  { rewrite (press_at w Syscall72) by reflexivity. enter_handler.
    now rewrite syscall72_eq by int32_lit. }
  set (s3 := set_console_log (Wrapper Syscall18) (emit (EvValidate Syscall42 4 1) s2)).
  assert (E3 : press w s2 4 = Done s3).
  { rewrite (press_at w Syscall42) by reflexivity. enter_handler.
    now rewrite syscall42_eq by int32_lit. }
  set (s4 := set_console_log (Wrapper TheEnd) (emit (EvValidate Syscall18 7 1) s3)).
  assert (E4 : press w s3 7 = Done s4).
  { rewrite (press_at w Syscall18) by reflexivity. enter_handler.
    now rewrite syscall18_eq by int32_lit. }
  set (s5 := set_console_log (Wrapper Syscall12) (emit (EvValidate TheEnd 4 1) (tick s4))).
  assert (E5 : press w s4 4 = Done s5).
  { rewrite (press_at w TheEnd) by reflexivity. enter_handler.
    rewrite the_end_slow; [reflexivity | int32_lit |].
    unfold enough_elapsed. apply Z.gtb_lt, Z.gt_lt. exact Hgate. }
  set (s6 := set_console_log (Wrapper Syscall188) (emit (EvValidate Syscall12 8 1) s5)).
  assert (E6 : press w s5 8 = Done s6).
  { rewrite (press_at w Syscall12) by reflexivity. enter_handler.
    now rewrite syscall12_eq. }
  set (s7 := hello w (emit (EvRunScript success_script)
                        (emit (EvValidate Syscall188 2 1) s6))).
  assert (E7 : press w s6 2 = Done s7).
  { rewrite (press_at w Syscall188) by reflexivity. reflexivity. }
  assert (T6 : trace s6 = trace s ++
            [EvDebugger; EvValidate Syscall80 1 1; EvValidate Syscall72 9 1;
             EvValidate Syscall42 4 1; EvValidate Syscall18 7 1;
             EvValidate TheEnd 4 1; EvValidate Syscall12 8 1]).
  { simpl. now repeat rewrite <- app_assoc. }
  assert (T7 : trace s7 = trace s ++
            [EvDebugger; EvValidate Syscall80 1 1; EvValidate Syscall72 9 1;
             EvValidate Syscall42 4 1; EvValidate Syscall18 7 1;
             EvValidate TheEnd 4 1; EvValidate Syscall12 8 1;
             EvValidate Syscall188 2 1; EvRunScript success_script;
             EvDebugger; EvSourceCompare true]).
  { unfold s7. rewrite hello_clean by exact Hguard. simpl.
    now repeat rewrite <- app_assoc. }
  assert (P6 : presses w s [1; 9; 4; 7; 4; 8] = Done s6).
  { rewrite (presses_cons w _ _ _ _ E1), (presses_cons w _ _ _ _ E2),
      (presses_cons w _ _ _ _ E3), (presses_cons w _ _ _ _ E4),
      (presses_cons w _ _ _ _ E5), (presses_cons w _ _ _ _ E6).
    reflexivity. }
  assert (P7 : presses w s [1; 9; 4; 7; 4; 8; 2] = Done s7).
  { rewrite (presses_cons w _ _ _ _ E1), (presses_cons w _ _ _ _ E2),
      (presses_cons w _ _ _ _ E3), (presses_cons w _ _ _ _ E4),
      (presses_cons w _ _ _ _ E5), (presses_cons w _ _ _ _ E6),
      (presses_cons w _ _ _ _ E7).
    reflexivity. }
  exists s6, s7.
  split; [exact P6|]. split; [reflexivity|].
  split; [now rewrite (events_since_app _ _ _ T6)|].
  split; [exact E7|]. split; [exact P7|].
  split; [exact (events_since_app _ _ _ T7)|].
  split; [now rewrite (events_since_app _ _ _ T7)|].
  rewrite T7, notify_count_app.
  match goal with |- (_ + ?n)%nat = _ => change n with 1%nat end. lia.
Qed.

Lemma winning_sequence_witness :
  exists s7 : State,
    presses slow_world page_loaded [1; 9; 4; 7; 4; 8; 2] = Done s7
    /\ notify_count (trace s7) = 1%nat.
Proof.
  set (s := {| first_press := 0; g_func_ptr := 1; log_stored := 1;
               console_log := Wrapper Syscall80; console_assert := NativeLog;
               ticks := 2; trace := [EvDebugger; EvSourceCompare true] |}).
  destruct (winning_sequence_notifies_once slow_world s)
    as (s6 & s7 & _ & _ & _ & _ & P7 & _ & _ & N);
    [reflexivity | reflexivity | reflexivity | vm_compute; reflexivity
    | reflexivity |].
  exists s7. split; [exact P7 | exact N].
Defined.

(** ** Wrong digits *)

Lemma before_the_end_reached :
  presses slow_world page_loaded [1; 9; 4; 7] = Done before_the_end
  /\ presses fast_world page_loaded [1; 9; 4; 7] = Done before_the_end.
Proof. split; vm_compute; reflexivity. Qed.

(** C3, as stated, fails at the fifth handler: a visitor who pressed
    1, 9, 4, 7 and then, seconds later, the wrong digit 3, with the guard
    clean, is left with the browser's [console.log], not with the wrapper of
    [__syscall80]. *)
Lemma the_end_wrong_digit_no_reset :
  (exists s' : State,
      guard_clean slow_world (ticks before_the_end) = true
      /\ 3 <> answer TheEnd
      /\ press slow_world before_the_end 3 = Done s'
      /\ console_log s' = NativeLog)
  /\ ~ (forall (w : World) (s : State) (h : Handler) (v : Z),
          h <> Syscall80 -> console_log s = Wrapper h ->
          int32 v -> v <> answer h -> guard_clean w (ticks s) = true ->
          exists s' : State,
            press w s v = Done s' /\ console_log s' = Wrapper Syscall80).
Proof.
  split.
  - eexists. split; [reflexivity|]. split; [discriminate|].
    split; [vm_compute; reflexivity | reflexivity].
  - intros H.
    destruct (H slow_world before_the_end TheEnd 3) as (s' & E & L);
      [discriminate | reflexivity | int32_lit | discriminate | reflexivity |].
    vm_compute in E. injection E as <-. discriminate L.
Qed.

(** C3, amended. In the handlers of digits 2, 3, 4, 6 and 7 a digit other
    than the expected one, with the guard clean, leads through [hello] back
    to the first handler: [console.log] is the wrapper of [__syscall80]
    afterwards. *)
Theorem wrong_digit_resets_to_stage1 (w : World) (s : State) (h : Handler) (v : Z) :
  In h [Syscall72; Syscall42; Syscall18; Syscall12; Syscall188] ->
  console_log s = Wrapper h ->
  int32 v ->
  v <> answer h ->
  guard_clean w (ticks s) = true ->
  exists s' : State,
    press w s v = Done s'
    /\ console_log s' = Wrapper Syscall80
    /\ events_since s s' = [EvValidate h v 0; EvDebugger; EvSourceCompare true].
Proof.
  intros Hin Hlog Hv Hne Hguard.
  rewrite (press_at w h) by exact Hlog.
  assert (Hreset :
    exists s' : State,
      Done (hello w (emit (EvValidate h v 0) s)) = Done s'
      /\ console_log s' = Wrapper Syscall80
      /\ events_since s s' = [EvValidate h v 0; EvDebugger; EvSourceCompare true]).
  { eexists. split; [reflexivity|]. rewrite hello_clean by exact Hguard.
    split; [reflexivity|]. apply events_since_app. simpl.
    now rewrite <- app_assoc. }
  simpl in Hin.
  destruct Hin as [<-|[<-|[<-|[<-|[<-|[]]]]]]; enter_handler; simpl in Hne.
  - rewrite syscall72_eq by exact Hv.
    destruct (Z.eqb_spec v 9); [contradiction | exact Hreset].
  - rewrite syscall42_eq by exact Hv.
    destruct (Z.eqb_spec v 4); [contradiction | exact Hreset].
  - rewrite syscall18_eq by exact Hv.
    destruct (Z.eqb_spec v 7); [contradiction | exact Hreset].
  - rewrite syscall12_eq.
    destruct (Z.eqb_spec v 8); [contradiction | exact Hreset].
  - unfold __syscall188.
    destruct (Z.eqb_spec v 2); [contradiction | exact Hreset].
Qed.

Lemma wrong_digit_resets_witness :
  exists s' : State,
    press fast_world
      {| first_press := 1000; g_func_ptr := 1; log_stored := 1;
         console_log := Wrapper Syscall42; console_assert := NativeLog;
         ticks := 5; trace := [] |} 6 = Done s'
    /\ console_log s' = Wrapper Syscall80
    /\ events_since
         {| first_press := 1000; g_func_ptr := 1; log_stored := 1;
            console_log := Wrapper Syscall42; console_assert := NativeLog;
            ticks := 5; trace := [] |} s'
       = [EvValidate Syscall42 6 0; EvDebugger; EvSourceCompare true].
Proof.
  apply (wrong_digit_resets_to_stage1 fast_world _ Syscall42 6).
  - simpl. tauto.
  - reflexivity.
  - unfold int32. lia.
  - simpl. lia.
  - reflexivity.
Defined.

(** ** The fifth handler *)

(** C6, as stated, fails: with the five digits pressed within the same
    second the digit test of [the_end] is indeed skipped, but what follows
    is not the reset: [hello] is not run and [console.log] is the browser's
    function, not the wrapper of [__syscall80]. *)
Lemma too_fast_not_reset_to_stage1 :
  exists s' : State,
    sub32 (wrap32 (clock fast_world (ticks before_the_end)))
          (first_press before_the_end) <= 1
    /\ press fast_world before_the_end 4 = Done s'
    /\ events_since before_the_end s' = [EvTrapModule]
    /\ console_log s' = NativeLog
    /\ console_log s' <> Wrapper Syscall80.
Proof.
  eexists. split; [vm_compute; discriminate|].
  split; [vm_compute; reflexivity|].
  split; [reflexivity|]. split; [reflexivity | discriminate].
Qed.

(** C6, amended. When [the_end] reads a clock that is not more than one
    second past [first_press], its digit test is never evaluated and the
    press is treated as a failure of that handler: the failure branch
    runs, which puts the function saved in [console.assert] back into
    [console.log] and runs the trap module; [hello] is not called and the
    globals keep their values. *)
Theorem too_fast_skips_validator (w : World) (s : State) (v : Z) :
  console_log s = Wrapper TheEnd ->
  sub32 (wrap32 (clock w (ticks s))) (first_press s) <= 1 ->
  exists s' : State,
    press w s v = Done s'
    /\ events_since s s' = [EvTrapModule]
    /\ console_log s' = console_assert s
    /\ console_assert s' = console_assert s
    /\ log_stored s' = log_stored s
    /\ first_press s' = first_press s
    /\ g_func_ptr s' = g_func_ptr s.
Proof.
  intros Hlog Hgate.
  rewrite (press_at w TheEnd) by exact Hlog. enter_handler.
  rewrite the_end_fast.
  - eexists. split; [reflexivity|].
    split; [now apply events_since_app|]. repeat split.
  - unfold enough_elapsed. destruct (Z.gtb_spec (sub32 (wrap32 (clock w (ticks s))) (first_press s)) 1); [lia | reflexivity].
Qed.

Lemma too_fast_skips_validator_witness :
  exists s' : State,
    press fast_world before_the_end 4 = Done s'
    /\ events_since before_the_end s' = [EvTrapModule]
    /\ console_log s' = console_assert before_the_end
    /\ console_assert s' = console_assert before_the_end
    /\ log_stored s' = log_stored before_the_end
    /\ first_press s' = first_press before_the_end
    /\ g_func_ptr s' = g_func_ptr before_the_end.
Proof.
  apply (too_fast_skips_validator fast_world before_the_end 4).
  - reflexivity.
  - vm_compute. discriminate.
Defined.

(** C2, as stated, fails twice.  The function put into [console.log] by the
    failure branch is the one saved in [console.assert], not one that
    traps: in a page nobody had to reset, pressing on afterwards reaches
    the browser's function and nothing happens.  And when an earlier wrong
    first digit made [hello] save the wrapper of [__syscall80] there, the
    failed fifth press, correct digit 4 included, lands on that wrapper and
    the session goes on. *)
Lemma the_end_failure_not_terminal :
  (exists t : State,
      presses fast_world page_loaded [1; 9; 4; 7; 4] = Done t
      /\ console_log t = NativeLog
      /\ press fast_world t 4 = Done t)
  /\ (exists s' s'' : State,
         presses fast_world page_loaded [5; 1; 9; 4; 7; 4] = Done s'
         /\ console_log s' = Wrapper Syscall80
         /\ press fast_world s' 1 = Done s''
         /\ console_log s'' = Wrapper Syscall72).
Proof.
  split.
  - eexists. split; [vm_compute; reflexivity|]. split; reflexivity.
  - eexists. eexists. split; [vm_compute; reflexivity|].
    split; [reflexivity|]. split; [vm_compute; reflexivity | reflexivity].
Qed.

(** C2, amended. A failed check in [the_end] (a wrong digit, or any digit,
    the correct 4 included, not more than one second after [first_press])
    does not go through [hello]: it puts the function saved in
    [console.assert] into [console.log], runs the trap module once, whose
    trap is caught, and displays nothing.  While [console.assert] still
    holds a function of the browser, no later press reaches the program. *)
Theorem the_end_failure_restores_console (w : World) (s : State) (v : Z) :
  console_log s = Wrapper TheEnd ->
  int32 v ->
  sub32 (wrap32 (clock w (ticks s))) (first_press s) <= 1 \/ v <> 4 ->
  exists s' : State,
    press w s v = Done s'
    /\ console_log s' = console_assert s
    /\ In EvTrapModule (events_since s s')
    /\ existsb is_guard (events_since s s') = false
    /\ notify_count (events_since s s') = 0%nat
    /\ (console_assert s = NativeLog \/ console_assert s = NativeAssert ->
        forall digits : list Z, presses w s' digits = Done s').
Proof.
  intros Hlog Hv Hfail.
  rewrite (press_at w TheEnd) by exact Hlog. enter_handler.
  destruct (enough_elapsed w s) eqn:Hgate.
  - assert (Hne : v <> 4).
    { destruct Hfail as [Hle|Hne]; [|exact Hne].
      unfold enough_elapsed in Hgate. apply Z.gtb_lt in Hgate. lia. }
    rewrite the_end_slow by assumption.
    destruct (Z.eqb_spec v 4); [contradiction|].
    eexists. split; [reflexivity|]. split; [reflexivity|].
    rewrite (events_since_app s _ [EvValidate TheEnd v 0; EvTrapModule])
      by (simpl; now rewrite <- app_assoc).
    split; [simpl; tauto|]. split; [reflexivity|]. split; [reflexivity|].
    intros Hnative digits. apply presses_native. exact Hnative.
  - rewrite the_end_fast by exact Hgate.
    eexists. split; [reflexivity|]. split; [reflexivity|].
    rewrite (events_since_app s _ [EvTrapModule]) by reflexivity.
    split; [simpl; tauto|]. split; [reflexivity|]. split; [reflexivity|].
    intros Hnative digits. apply presses_native. exact Hnative.
Qed.

Lemma the_end_failure_witness :
  exists s' : State,
    press fast_world before_the_end 4 = Done s'
    /\ console_log s' = NativeLog
    /\ presses fast_world s' [1; 9; 4; 7; 4; 8; 2] = Done s'.
Proof.
  destruct (the_end_failure_restores_console fast_world before_the_end 4)
    as (s' & E & L & _ & _ & _ & T).
  - reflexivity.
  - unfold int32. lia.
  - left. vm_compute. discriminate.
  - exists s'. split; [exact E|]. split; [exact L|].
    apply T. left. reflexivity.
Defined.

(** ** Success *)

Lemma before_last_digit_reached :
  presses slow_world page_loaded [1; 9; 4; 7; 4; 8] = Done before_last_digit.
Proof. vm_compute. reflexivity. Qed.

(** C7, as stated, fails: after the seventh digit the chain does not end.
    [__syscall188] calls [hello], which installs the wrapper of
    [__syscall80] again, and the next press is processed by it. *)
Lemma success_not_terminal :
  exists s7 s8 : State,
    press slow_world before_last_digit 2 = Done s7
    /\ In (EvRunScript success_script) (events_since before_last_digit s7)
    /\ console_log s7 = Wrapper Syscall80
    /\ press slow_world s7 1 = Done s8
    /\ console_log s8 = Wrapper Syscall72
    /\ s8 <> s7.
Proof.
  eexists. eexists. split; [vm_compute; reflexivity|].
  split; [vm_compute; tauto|]. split; [reflexivity|].
  split; [vm_compute; reflexivity|]. split; [reflexivity | discriminate].
Qed.

(** C7, amended. After a success at the seventh digit the success script is
    run through the host and then [hello] runs: with the guard clean it
    installs the wrapper of [__syscall80] again (saving the wrapper of
    [__syscall188] in [console.assert]), so the next press is processed as a
    first digit. *)
Theorem success_then_rearmed (w : World) (s : State) :
  console_log s = Wrapper Syscall188 ->
  guard_clean w (ticks s) = true ->
  exists s' : State,
    press w s 2 = Done s'
    /\ events_since s s'
       = [EvValidate Syscall188 2 1; EvRunScript success_script;
          EvDebugger; EvSourceCompare true]
    /\ console_log s' = Wrapper Syscall80
    /\ console_assert s' = Wrapper Syscall188
    /\ (g_func_ptr s = 1 -> inspector_at w (2 + ticks s) = false ->
        exists s'' : State,
          press w s' 1 = Done s'' /\ console_log s'' = Wrapper Syscall72).
Proof.
  intros Hlog Hguard.
  rewrite (press_at w Syscall188) by exact Hlog. enter_handler.
  unfold __syscall188. simpl.
  rewrite hello_clean by exact Hguard. simpl.
  eexists. split; [reflexivity|].
  split; [apply events_since_app; simpl; now repeat rewrite <- app_assoc|].
  split; [reflexivity|]. split; [exact Hlog|].
  intros Hptr Hprobe.
  rewrite (press_at w Syscall80) by reflexivity. enter_handler.
  rewrite syscall80_clean by exact Hprobe. simpl.
  rewrite Hptr. simpl. eexists. split; reflexivity.
Qed.

Lemma success_then_rearmed_witness :
  exists s' : State,
    press slow_world before_last_digit 2 = Done s'
    /\ console_log s' = Wrapper Syscall80
    /\ exists s'' : State,
         press slow_world s' 1 = Done s'' /\ console_log s'' = Wrapper Syscall72.
Proof.
  destruct (success_then_rearmed slow_world before_last_digit)
    as (s' & E & _ & L & _ & Next); [reflexivity | reflexivity |].
  exists s'. split; [exact E|]. split; [exact L|].
  apply Next; reflexivity.
Defined.

(** ** What each function leaves alone *)

Section Frames.

Variable w : World.

Lemma after_check_frame (h next : Handler) (r : Wasm.result) (s : State) (v : Z) :
  first_press (outcome_state (after_check w h next r s v)) = first_press s
  /\ g_func_ptr (outcome_state (after_check w h next r s v)) = g_func_ptr s.
Proof.
  unfold after_check. destruct r as [x| |]; simpl; auto.
  destruct (x =? 1); simpl; auto.
  now rewrite hello_first_press, hello_g_func_ptr.
Qed.

Lemma the_end_frame (s : State) (v : Z) :
  first_press (outcome_state (the_end w s v)) = first_press s
  /\ g_func_ptr (outcome_state (the_end w s v)) = g_func_ptr s.
Proof.
  unfold the_end, time. cbv beta iota zeta.
  destruct (sub32 (wrap32 (clock w (ticks s))) (first_press (tick s)) >? 1).
  - destruct (the_end_check v) as [x| |]; cbv beta iota; [|simpl; auto..].
    destruct (x =? 1); [simpl; auto|].
    rewrite the_end_failure_eq. simpl. auto.
  - cbv beta iota. change (0 =? 1) with false. cbv iota.
    rewrite the_end_failure_eq. simpl. auto.
Qed.

(** Only [__syscall80] writes [first_press]. *)
Lemma ccall_first_press (h : Handler) (s : State) (v : Z) :
  h <> Syscall80 ->
  first_press (outcome_state (ccall w h s v)) = first_press s.
Proof.
  intros Hh. unfold ccall. generalize (wrap32 v). clear v. intros v.
  destruct h; simpl handler.
  - contradiction.
  - apply after_check_frame.
  - apply after_check_frame.
  - apply after_check_frame.
  - apply the_end_frame.
  - unfold __syscall12. destruct (syscall12_test v); simpl; [reflexivity|].
    now rewrite hello_first_press.
  - unfold __syscall188. simpl.
    destruct (v =? 2); now rewrite hello_first_press.
Qed.

Lemma syscall80_g_func_ptr (s : State) (v : Z) :
  g_func_ptr (outcome_state (__syscall80 w s v)) = g_func_ptr s.
Proof.
  destruct (inspector_at w (ticks s)) eqn:H.
  - rewrite syscall80_detected by exact H. unfold neutralized. simpl.
    destruct (log_stored s =? 1); reflexivity.
  - rewrite syscall80_clean by exact H. cbv zeta.
    destruct (g_func_ptr s =? 1); simpl; [|reflexivity].
    unfold call_me_indirectly. destruct (v =? 1); simpl; [reflexivity|].
    now rewrite hello_g_func_ptr.
Qed.

(** No handler writes [g_func_ptr]. *)
Lemma ccall_g_func_ptr (h : Handler) (s : State) (v : Z) :
  g_func_ptr (outcome_state (ccall w h s v)) = g_func_ptr s.
Proof.
  unfold ccall. generalize (wrap32 v). clear v. intros v.
  destruct h; simpl handler.
  - apply syscall80_g_func_ptr.
  - apply after_check_frame.
  - apply after_check_frame.
  - apply after_check_frame.
  - apply the_end_frame.
  - unfold __syscall12. destruct (syscall12_test v); simpl; [reflexivity|].
    now rewrite hello_g_func_ptr.
  - unfold __syscall188. simpl.
    destruct (v =? 2); now rewrite hello_g_func_ptr.
Qed.

End Frames.

Lemma page_loaded_reached :
  hello slow_world (set_g_func_ptr 1 initial) = page_loaded
  /\ hello fast_world (set_g_func_ptr 1 initial) = page_loaded
  /\ hello inspected_world (set_g_func_ptr 1 initial) = page_loaded.
Proof. repeat split. Qed.

(** ** The timestamp *)

(** C8, as stated, fails: a failed first-digit attempt modifies
    [first_press].  On an armed page the wrong digit 5 changes it
    from 0 to the clock reading. *)
Lemma first_press_changed_by_failed_attempt :
  exists s' : State,
    press fast_world page_loaded 5 = Done s'
    /\ console_log s' = Wrapper Syscall80
    /\ first_press page_loaded = 0
    /\ first_press s' = 1000
    /\ first_press s' <> first_press page_loaded.
Proof.
  eexists. split; [vm_compute; reflexivity|].
  split; [reflexivity|]. split; [reflexivity|].
  split; [reflexivity | discriminate].
Qed.

(** C8, amended. [first_press] is written on every visit of [__syscall80]
    whose inspector probe finds nothing, before the digit is looked at and
    whatever the digit is; it is not written when the probe detects an
    inspector, and no other handler nor [hello] writes it. *)
Theorem first_press_written_on_every_clean_visit (w : World) (s : State) (v : Z) :
  (inspector_at w (ticks s) = false ->
   first_press (outcome_state (__syscall80 w s v)) = wrap32 (clock w (2 + ticks s)))
  /\ (inspector_at w (ticks s) = true ->
      first_press (outcome_state (__syscall80 w s v)) = first_press s)
  /\ (forall h : Handler, h <> Syscall80 ->
      first_press (outcome_state (ccall w h s v)) = first_press s)
  /\ first_press (hello w s) = first_press s.
Proof.
  split; [|split; [|split]].
  - intros H. rewrite syscall80_clean by exact H. cbv zeta.
    destruct (g_func_ptr s =? 1); simpl; [|reflexivity].
    unfold call_me_indirectly. destruct (v =? 1); simpl; [reflexivity|].
    now rewrite hello_first_press.
  - intros H. rewrite syscall80_detected by exact H. unfold neutralized. simpl.
    destruct (log_stored s =? 1); reflexivity.
  - intros h Hh. now apply ccall_first_press.
  - apply hello_frame.
Qed.

Lemma first_press_written_witness :
  first_press (outcome_state (__syscall80 fast_world page_loaded 5)) = 1000
  /\ first_press (outcome_state (__syscall80 inspected_world page_loaded 1)) = 0
  /\ first_press (outcome_state (ccall fast_world Syscall72 page_loaded 3)) = 0.
Proof.
  split; [|split].
  - apply (proj1 (first_press_written_on_every_clean_visit fast_world page_loaded 5)).
    reflexivity.
  - apply (proj1 (proj2 (first_press_written_on_every_clean_visit
                           inspected_world page_loaded 1))).
    reflexivity.
  - apply (proj1 (proj2 (proj2 (first_press_written_on_every_clean_visit
                                  fast_world page_loaded 3)))).
    discriminate.
Defined.

(** ** The guard's report *)

(** C5, as stated, fails: with the developer console open at the first
    press the input is discarded, but the next state is not the first
    stage: [console.log] is the browser's function again, not the wrapper
    of [__syscall80]. *)
Lemma inspector_detected_not_stage1 :
  exists s' : State,
    inspector_at inspected_world (ticks page_loaded) = true
    /\ press inspected_world page_loaded 1 = Done s'
    /\ console_log s' = NativeLog
    /\ console_log s' <> Wrapper Syscall80.
Proof.
  eexists. split; [reflexivity|]. split; [vm_compute; reflexivity|].
  split; [reflexivity | discriminate].
Qed.

(** C5, amended. When the guard reports, the program does not install the
    wrapper of [__syscall80]: it puts the function saved in
    [console.assert] into [console.log] (when [log_stored] is 1).  In
    [__syscall80] only the inspector probe comes before the digit test: a
    detection there discards the input, nothing is tested and
    [first_press] is not written, while a tampered source text is not
    looked at and the digit is processed.  [hello], on the reset path,
    makes both checks. *)
Theorem guard_report_restores_console (w : World) (s : State) (v : Z) :
  guard_clean w (ticks s) = false ->
  console_log (hello w s)
  = (if log_stored s =? 1 then console_assert s else console_log s)
  /\ (inspector_at w (ticks s) = true ->
      console_log s = Wrapper Syscall80 ->
      exists s' : State,
        press w s v = Done s'
        /\ events_since s s' = [EvDebugger]
        /\ console_log s'
           = (if log_stored s =? 1 then console_assert s else console_log s)
        /\ first_press s' = first_press s)
  /\ (inspector_at w (ticks s) = false ->
      console_log s = Wrapper Syscall80 ->
      g_func_ptr s = 1 ->
      exists s' : State,
        press w s 1 = Done s' /\ console_log s' = Wrapper Syscall72).
Proof.
  intros Hguard. split; [apply hello_not_clean; exact Hguard|]. split.
  - intros Hprobe Hlog.
    rewrite (press_at w Syscall80) by exact Hlog. enter_handler.
    rewrite syscall80_detected by exact Hprobe.
    eexists. split; [reflexivity|]. unfold neutralized. simpl.
    destruct (log_stored s =? 1); simpl;
      (split; [now apply events_since_app|]); split; reflexivity.
  - intros Hprobe Hlog Hptr.
    rewrite (press_at w Syscall80) by exact Hlog. enter_handler.
    rewrite syscall80_clean by exact Hprobe. cbv zeta. rewrite Hptr.
    eexists. split; reflexivity.
Qed.

Lemma guard_report_witness :
  console_log (hello inspected_world page_loaded) = NativeLog
  /\ exists s' : State,
       press inspected_world page_loaded 9 = Done s'
       /\ events_since page_loaded s' = [EvDebugger]
       /\ console_log s' = NativeLog
       /\ first_press s' = 0.
Proof.
  destruct (guard_report_restores_console inspected_world page_loaded 9)
    as (H & D & _); [reflexivity|].
  split; [exact H|]. apply D; reflexivity.
Defined.

(** ** The launch contract *)

(** C10. [g_func_ptr] starts as the null pointer, no handler nor [hello]
    writes it, and [main] sets it only when the launch check passes (a
    violated launch leaves it as it is).  While it is null, a press that
    reaches [__syscall80] with the inspector probe clean ends in the
    indirect call through index zero, which traps: no digit is tested and
    [console.log] is not changed. *)
Theorem null_g_func_ptr_traps (w : World) (s : State) (v : Z) :
  g_func_ptr s = 0 ->
  inspector_at w (ticks s) = false ->
  (exists s' : State,
      __syscall80 w s v = Trapped s'
      /\ events_since s s' = [EvDebugger]
      /\ console_log s' = console_log s
      /\ console_assert s' = console_assert s)
  /\ g_func_ptr initial = 0
  /\ g_func_ptr (hello w s) = g_func_ptr s
  /\ (forall h : Handler, g_func_ptr (outcome_state (ccall w h s v)) = g_func_ptr s)
  /\ (forall (p_argc : Z) (argv0 : string),
         (p_argc = 1 /\ argv0 = program_name ->
          main s p_argc argv0 = Done (set_g_func_ptr 1 s))
         /\ (p_argc <> 1 \/ argv0 <> program_name ->
             exists s' : State,
               main s p_argc argv0 = Exited s' /\ g_func_ptr s' = g_func_ptr s)).
Proof.
  intros Hnull Hprobe. split; [|split; [|split; [|split]]].
  - rewrite syscall80_clean by exact Hprobe. cbv zeta. rewrite Hnull.
    eexists. split; [reflexivity|].
    split; [now apply events_since_app|]. split; reflexivity.
  - reflexivity.
  - apply hello_g_func_ptr.
  - intros h. apply ccall_g_func_ptr.
  - intros p_argc argv0. unfold main. split.
    + intros [-> ->]. reflexivity.
    + intros Hbad.
      destruct (Z.eqb_spec p_argc 1) as [E1|E1];
        destruct (String.eqb_spec argv0 program_name) as [E2|E2]; simpl;
        try (eexists; split; reflexivity).
      destruct Hbad; contradiction.
Qed.

Lemma null_g_func_ptr_witness :
  exists s' : State,
    __syscall80 fast_world (hello fast_world initial) 1 = Trapped s'
    /\ events_since (hello fast_world initial) s' = [EvDebugger]
    /\ console_log s' = Wrapper Syscall80.
Proof.
  destruct (null_g_func_ptr_traps fast_world (hello fast_world initial) 1)
    as ((s' & E & T & L & _) & _); [reflexivity | reflexivity |].
  exists s'. split; [exact E|]. split; [exact T | exact L].
Defined.

(** ** Where the guard runs *)

Lemma after_first_digit_reached :
  presses slow_world page_loaded [1] = Done after_first_digit.
Proof. vm_compute. reflexivity. Qed.

(** C4, as stated, fails: the second digit is tested without the guard
    having been invoked at all; the step adds the digit test to the trace
    and nothing else. *)
Lemma syscall72_no_guard_before_validator :
  exists s' : State,
    press slow_world after_first_digit 9 = Done s'
    /\ events_since after_first_digit s' = [EvValidate Syscall72 9 1]
    /\ guard_before_validator (events_since after_first_digit s') = false
    /\ existsb is_guard (events_since after_first_digit s') = false.
Proof.
  eexists. split; [vm_compute; reflexivity|]. repeat split.
Qed.

Lemma hello_guard_events (w : World) (s : State) :
  trace (hello w s) = trace s ++ guard_events w (ticks s).
Proof.
  unfold guard_events. destruct (inspector_at w (ticks s)) eqn:H.
  - now apply hello_events_detected.
  - now apply hello_events.
Qed.

(** What a step that ends in [hello] adds: what it had added before, then
    one run of the guard. *)
Lemma events_then_guard (w : World) (s t : State) (evs : list Event) :
  trace t = trace s ++ evs ->
  events_since s (hello w t) = evs ++ guard_events w (ticks t).
Proof.
  intros E. apply events_since_app.
  now rewrite hello_guard_events, E, <- app_assoc.
Qed.

(** C4, amended. Only [__syscall80] consults the guard before its digit
    test, and only the inspector probe of it: the source text is not
    compared there.  The handlers of digits 2, 3, 4, 6 and 7 test the digit
    first.  On a wrong digit (and, in [__syscall188], always) the guard
    runs afterwards, inside [hello]: one probe, followed by the comparison
    of the source text when the probe found nothing; after a matching digit
    2, 3, 4 or 6 it does not run at all.  [the_end] never runs the guard.
    Every run of [hello] is such a run of the guard. *)
Theorem guard_runs_on_reset_only (w : World) (s : State) (v : Z) :
  int32 v ->
  (inspector_at w (ticks s) = false -> g_func_ptr s = 1 ->
   events_since s (outcome_state (__syscall80 w s v))
   = EvDebugger :: EvValidate Syscall80 v (if v =? 1 then 1 else 0)
       :: (if v =? 1 then [] else guard_events w (3 + ticks s)))
  /\ (forall h : Handler,
         In h [Syscall72; Syscall42; Syscall18; Syscall12] ->
         events_since s (outcome_state (ccall w h s v))
         = EvValidate h v (if v =? answer h then 1 else 0)
             :: (if v =? answer h then [] else guard_events w (ticks s)))
  /\ events_since s (outcome_state (ccall w Syscall188 s v))
     = EvValidate Syscall188 v (if v =? 2 then 1 else 0)
         :: (if v =? 2 then [EvRunScript success_script] else [])
         ++ guard_events w (ticks s)
  /\ existsb is_guard (events_since s (outcome_state (the_end w s v))) = false
  /\ events_since s (hello w s) = guard_events w (ticks s)
  /\ (inspector_at w (ticks s) = false ->
      events_since s (hello w s)
      = [EvDebugger; EvSourceCompare (negb (tampered_at w (ticks s)))]).
Proof.
  intros Hv.
  assert (Hmatch : forall (h n : Handler),
    events_since s (outcome_state
      (Done (set_console_log (Wrapper n) (emit (EvValidate h v 1) s))))
    = [EvValidate h v 1]).
  { intros h n. now apply events_since_app. }
  assert (Hmiss : forall h : Handler,
    events_since s (outcome_state (Done (hello w (emit (EvValidate h v 0) s))))
    = EvValidate h v 0 :: guard_events w (ticks s)).
  { intros h. simpl outcome_state.
    now rewrite (events_then_guard w s _ [EvValidate h v 0]). }
  split; [|split; [|split; [|split; [|split]]]].
  - intros Hprobe Hptr. rewrite syscall80_clean by exact Hprobe. cbv zeta.
    rewrite Hptr. simpl outcome_state. unfold call_me_indirectly.
    destruct (v =? 1).
    + apply events_since_app. simpl. now rewrite <- app_assoc.
    + rewrite (events_then_guard w s _ [EvDebugger; EvValidate Syscall80 v 0]);
        [reflexivity | simpl; now rewrite <- app_assoc].
  - intros h Hin. simpl in Hin. rewrite ccall_int32 by exact Hv.
    destruct Hin as [<-|[<-|[<-|[<-|[]]]]]; simpl handler; simpl answer.
    + rewrite syscall72_eq by exact Hv.
      destruct (v =? 9); [apply Hmatch | apply Hmiss].
    + rewrite syscall42_eq by exact Hv.
      destruct (v =? 4); [apply Hmatch | apply Hmiss].
    + rewrite syscall18_eq by exact Hv.
      destruct (v =? 7); [apply Hmatch | apply Hmiss].
    + rewrite syscall12_eq.
      destruct (v =? 8); [apply Hmatch | apply Hmiss].
  - rewrite ccall_int32 by exact Hv. simpl handler. unfold __syscall188.
    simpl outcome_state. destruct (v =? 2).
    + rewrite (events_then_guard w s _
                 [EvValidate Syscall188 v 1; EvRunScript success_script]);
        [reflexivity | simpl; now rewrite <- app_assoc].
    + now rewrite (events_then_guard w s _ [EvValidate Syscall188 v 0]).
  - destruct (enough_elapsed w s) eqn:Hgate.
    + rewrite the_end_slow by assumption. destruct (v =? 4); simpl outcome_state.
      * now rewrite (events_since_app s _ [EvValidate TheEnd v 1]).
      * rewrite (events_since_app s _ [EvValidate TheEnd v 0; EvTrapModule]);
          [reflexivity | simpl; now rewrite <- app_assoc].
    + rewrite the_end_fast by exact Hgate.
      now rewrite (events_since_app s _ [EvTrapModule]).
  - apply events_since_app. apply hello_guard_events.
  - intros Hprobe. apply events_since_app. now apply hello_events.
Qed.

Lemma guard_runs_on_reset_only_witness :
  events_since page_loaded (outcome_state (__syscall80 slow_world page_loaded 5))
  = [EvDebugger; EvValidate Syscall80 5 0; EvDebugger; EvSourceCompare true]
  /\ events_since after_first_digit
       (outcome_state (ccall slow_world Syscall72 after_first_digit 9))
     = [EvValidate Syscall72 9 1]
  /\ events_since after_first_digit
       (outcome_state (ccall slow_world Syscall72 after_first_digit 3))
     = [EvValidate Syscall72 3 0; EvDebugger; EvSourceCompare true]
  /\ events_since page_loaded (hello slow_world page_loaded)
     = [EvDebugger; EvSourceCompare true].
Proof.
  split; [|split; [|split]].
  - apply (proj1 (guard_runs_on_reset_only slow_world page_loaded 5
                    ltac:(unfold int32; lia))); reflexivity.
  - apply (proj1 (proj2 (guard_runs_on_reset_only slow_world after_first_digit 9
                           ltac:(unfold int32; lia))) Syscall72).
    simpl. tauto.
  - apply (proj1 (proj2 (guard_runs_on_reset_only slow_world after_first_digit 3
                           ltac:(unfold int32; lia))) Syscall72).
    simpl. tauto.
  - apply (proj2 (proj2 (proj2 (proj2 (proj2
             (guard_runs_on_reset_only slow_world page_loaded 1
                ltac:(unfold int32; lia))))))).
    reflexivity.
Defined.
(** * Further properties *)

(** ** Steps always return *)

Lemma digit_test_returns (c v : Z) :
  Wasm.call (digit_test c) v
  = Wasm.Returned (if u32 v =? u32 c then 1 else 0).
Proof.
  unfold Wasm.call, digit_test. simpl. now destruct (u32 v =? u32 c).
Qed.

Lemma invoke_wasm72_returns (v : Z) :
  Wasm.invoke Payload.wasm72 "oh_no" v
  = Wasm.Returned (if u32 v =? u32 9 then 1 else 0).
Proof. unfold Wasm.invoke. rewrite load_wasm72. apply digit_test_returns. Qed.

Lemma invoke_wasm42_returns (v : Z) :
  Wasm.invoke (read_c_array Payload.wasm42) "_oh_no" v
  = Wasm.Returned (if u32 v =? u32 4 then 1 else 0).
Proof. unfold Wasm.invoke. rewrite load_wasm42. apply digit_test_returns. Qed.

Lemma invoke_wasm18_returns (v : Z) :
  Wasm.invoke (read_c_array (deobfuscate 0xaa Payload.wasm18)) "oh_no" v
  = Wasm.Returned (if u32 v =? u32 7 then 1 else 0).
Proof. unfold Wasm.invoke. rewrite load_wasm18. apply digit_test_returns. Qed.

Lemma the_end_check_returns (v : Z) :
  the_end_check v = Wasm.Returned (if u32 v =? u32 4 then 1 else 0).
Proof.
  unfold the_end_check. generalize load_wasmCode.
  destruct (Wasm.load Payload.xor_decode "lolwat") as [lolwat|]; [|discriminate].
  destruct (oracle_decode lolwat Payload.wasmCode) as [code|]; [|discriminate].
  intros Hload. unfold Wasm.invoke. rewrite Hload. apply digit_test_returns.
Qed.

Section Returns.

Variable w : World.

Lemma after_check_done (h n : Handler) (x : Z) (s : State) (v : Z) :
  exists s' : State, after_check w h n (Wasm.Returned x) s v = Done s'.
Proof. unfold after_check. destruct (x =? 1); eexists; reflexivity. Qed.

Lemma the_end_done (s : State) (v : Z) :
  exists s' : State, the_end w s v = Done s'.
Proof.
  unfold the_end, time. cbv beta iota zeta.
  destruct (sub32 (wrap32 (clock w (ticks s))) (first_press (tick s)) >? 1).
  - rewrite the_end_check_returns. cbv beta iota.
    destruct ((if u32 v =? u32 4 then 1 else 0) =? 1); eexists; reflexivity.
  - cbv beta iota. change (0 =? 1) with false. cbv iota. eexists. reflexivity.
Qed.

(** With [g_func_ptr] set by [main], no call of a handler traps or throws. *)
Lemma ccall_done (h : Handler) (s : State) (v : Z) :
  g_func_ptr s = 1 -> exists s' : State, ccall w h s v = Done s'.
Proof.
  intros Hptr. unfold ccall. generalize (wrap32 v). clear v. intros v.
  destruct h; simpl handler.
  - destruct (inspector_at w (ticks s)) eqn:H.
    + rewrite syscall80_detected by exact H. eexists. reflexivity.
    + rewrite syscall80_clean by exact H. cbv zeta. rewrite Hptr.
      eexists. reflexivity.
  - unfold __syscall72. rewrite invoke_wasm72_returns. apply after_check_done.
  - unfold __syscall42. rewrite invoke_wasm42_returns. apply after_check_done.
  - unfold __syscall18. cbv zeta. rewrite invoke_wasm18_returns.
    apply after_check_done.
  - apply the_end_done.
  - unfold __syscall12. destruct (syscall12_test v); eexists; reflexivity.
  - unfold __syscall188. eexists. reflexivity.
Qed.

End Returns.

(** ** What a step adds to the trace *)

Lemma existsb_alert_app (a b : list Event) :
  existsb is_alert (a ++ b) = (existsb is_alert a || existsb is_alert b)%bool.
Proof. apply existsb_app. Qed.

Lemma adds_same (s t : State) : trace t = trace s -> adds s t 0.
Proof. intros E. exists []. rewrite E, app_nil_r. repeat split. Qed.

Lemma adds_trans (s t u : State) (n m : nat) :
  adds s t n -> adds t u m -> adds s u (n + m).
Proof.
  intros (e1 & T1 & A1 & N1) (e2 & T2 & A2 & N2). exists (e1 ++ e2).
  split; [now rewrite T2, T1, app_assoc|].
  split; [now rewrite existsb_alert_app, A1, A2|].
  now rewrite notify_count_app, N1, N2.
Qed.

Lemma adds_emit (e : Event) (s : State) :
  is_notify e = false -> adds s (emit e s) 0.
Proof.
  intros H. exists [e]. split; [reflexivity|].
  destruct e; try discriminate H; repeat split.
Qed.

Lemma adds_hello (w : World) (s : State) : adds s (hello w s) 0.
Proof.
  destruct (inspector_at w (ticks s)) eqn:H.
  - exists [EvDebugger]. split; [now apply hello_events_detected|]. split; reflexivity.
  - eexists. split; [now apply hello_events|]. split; reflexivity.
Qed.

Lemma adds_emit_hello (w : World) (e : Event) (s : State) :
  is_notify e = false -> adds s (hello w (emit e s)) 0.
Proof.
  intros H. apply (adds_trans s (emit e s) _ 0 0);
    [now apply adds_emit | apply adds_hello].
Qed.

Section StepTrace.

Variable w : World.

Lemma after_check_adds (h n : Handler) (r : Wasm.result) (s : State) (v : Z) :
  adds s (outcome_state (after_check w h n r s v)) 0.
Proof.
  unfold after_check. destruct r as [x| |]; simpl outcome_state;
    [|now apply adds_same..].
  destruct (x =? 1); simpl outcome_state.
  - now apply (adds_emit (EvValidate h v x)).
  - now apply adds_emit_hello.
Qed.

Lemma the_end_adds (s : State) (v : Z) :
  adds s (outcome_state (the_end w s v)) 0.
Proof.
  unfold the_end, time. cbv beta iota zeta.
  destruct (sub32 (wrap32 (clock w (ticks s))) (first_press (tick s)) >? 1).
  - destruct (the_end_check v) as [x| |]; cbv beta iota;
      [|now apply adds_same..].
    destruct (x =? 1); simpl outcome_state.
    + now apply (adds_emit (EvValidate TheEnd v x) (tick s)).
    + rewrite the_end_failure_eq.
      exists [EvValidate TheEnd v x; EvTrapModule]. simpl.
      rewrite <- app_assoc. repeat split.
  - cbv beta iota. change (0 =? 1) with false. cbv iota.
    simpl outcome_state. rewrite the_end_failure_eq.
    exists [EvTrapModule]. repeat split.
Qed.

Lemma syscall80_adds (s : State) (v : Z) :
  adds s (outcome_state (__syscall80 w s v)) 0.
Proof.
  destruct (inspector_at w (ticks s)) eqn:H.
  - rewrite syscall80_detected by exact H. simpl outcome_state.
    exists [EvDebugger]. unfold neutralized.
    destruct (log_stored (probed s) =? 1); repeat split.
  - rewrite syscall80_clean by exact H. cbv zeta.
    set (s3 := set_first_press (wrap32 (clock w (S (S (ticks s))))) (tick (probed s))).
    assert (H3 : adds s s3 0) by (exists [EvDebugger]; repeat split).
    destruct (g_func_ptr s =? 1); simpl outcome_state; [|exact H3].
    unfold call_me_indirectly. destruct (v =? 1).
    + apply (adds_trans s s3 _ 0 0 H3).
      now apply (adds_emit (EvValidate Syscall80 v 1) s3).
    + apply (adds_trans s s3 _ 0 0 H3). now apply adds_emit_hello.
Qed.

(** What a call of a handler adds: never the [alert] of the failure
    snippet, and one displayed message exactly when the handler is the last
    one and the digit is 2. *)
Lemma handler_adds (h : Handler) (s : State) (v : Z) :
  adds s (outcome_state (handler w h s v))
       (if (is_last h && (v =? 2))%bool then 1 else 0).
Proof.
  destruct h; simpl handler; simpl is_last; cbv iota.
  - apply syscall80_adds.
  - apply after_check_adds.
  - apply after_check_adds.
  - apply after_check_adds.
  - apply the_end_adds.
  - unfold __syscall12. destruct (syscall12_test v); simpl outcome_state.
    + now apply (adds_emit (EvValidate Syscall12 v 1)).
    + now apply adds_emit_hello.
  - unfold __syscall188. simpl outcome_state. simpl andb.
    destruct (v =? 2).
    + apply (adds_trans s (emit (EvRunScript success_script)
                             (emit (EvValidate Syscall188 v 1) s)) _ 1 0);
        [|apply adds_hello].
      exists [EvValidate Syscall188 v 1; EvRunScript success_script].
      simpl. rewrite <- app_assoc. repeat split.
    + now apply adds_emit_hello.
Qed.

Lemma ccall_adds (h : Handler) (s : State) (v : Z) :
  adds s (outcome_state (ccall w h s v))
       (if (is_last h && (wrap32 v =? 2))%bool then 1 else 0).
Proof. apply handler_adds. Qed.

End StepTrace.

(** ** Runs of presses *)

Section Regular.

Variable w : World.

Lemma press_regular (s : State) (d : Z) :
  g_func_ptr s = 1 ->
  exists (s' : State) (n : nat),
    press w s d = Done s' /\ g_func_ptr s' = 1 /\ adds s s' n.
Proof.
  intros Hptr. unfold press. destruct (console_log s) as [| |h].
  - exists s, 0%nat. split; [reflexivity|]. split; [exact Hptr | now apply adds_same].
  - exists s, 0%nat. split; [reflexivity|]. split; [exact Hptr | now apply adds_same].
  - destruct (ccall_done w h s d Hptr) as (s' & E).
    pose proof (ccall_g_func_ptr w h s d) as G.
    pose proof (ccall_adds w h s d) as A.
    rewrite E in G, A. simpl in G, A.
    eexists. eexists. split; [exact E|]. split; [congruence | exact A].
Qed.

Lemma presses_regular (digits : list Z) :
  forall s : State,
    g_func_ptr s = 1 ->
    exists (s' : State) (n : nat),
      presses w s digits = Done s' /\ g_func_ptr s' = 1 /\ adds s s' n.
Proof.
  induction digits as [|d rest IH]; intros s Hptr.
  - exists s, 0%nat. split; [reflexivity|]. split; [exact Hptr | now apply adds_same].
  - destruct (press_regular s d Hptr) as (s1 & n1 & E1 & G1 & A1).
    destruct (IH s1 G1) as (s2 & n2 & E2 & G2 & A2).
    exists s2, (n1 + n2)%nat. split; [|split; [exact G2|]].
    + simpl. now rewrite E1.
    + exact (adds_trans _ _ _ _ _ A1 A2).
Qed.

(** From any state, a run of presses only adds to the trace, and never an
    [alert] of a snippet. *)
Lemma presses_adds (digits : list Z) :
  forall s : State,
    exists n : nat, adds s (outcome_state (presses w s digits)) n.
Proof.
  induction digits as [|d rest IH]; intros s.
  - exists 0%nat. now apply adds_same.
  - simpl. unfold press. destruct (console_log s) as [| |h]; [apply IH..|].
    pose proof (ccall_adds w h s d) as A.
    destruct (ccall w h s d) as [s1|s1|s1|s1]; simpl in A;
      try (eexists; exact A).
    destruct (IH s1) as (n & A1). eexists. exact (adds_trans _ _ _ _ _ A A1).
Qed.

End Regular.

(** X1. Once [main] has set [g_func_ptr], no sequence of button presses
    makes the program trap or throw, whatever the state they start in, the
    clock and the guard: the last handler returns, and [g_func_ptr] still
    designates [call_me_indirectly]. *)
Theorem presses_always_return (w : World) (s : State) (digits : list Z) :
  g_func_ptr s = 1 ->
  exists s' : State, presses w s digits = Done s' /\ g_func_ptr s' = 1.
Proof.
  intros Hptr. destruct (presses_regular w digits s Hptr) as (s' & n & E & G & _).
  exists s'. split; [exact E | exact G].
Qed.

Lemma presses_always_return_witness :
  exists s' : State,
    presses ticking_world page_loaded [1; 9; -4; 4294967297; 0; 4; 7; 4; 8; 2]
    = Done s'
    /\ g_func_ptr s' = 1.
Proof.
  apply (presses_always_return ticking_world page_loaded). reflexivity.
Defined.

(** X2. The [alert] after the trap module in the failure snippet of
    [the_end] is dead code: from no state does any sequence of presses ever
    show it. *)
Theorem dead_alert_never_shown (w : World) (s : State) (digits : list Z) :
  existsb is_alert (events_since s (outcome_state (presses w s digits))) = false.
Proof.
  destruct (presses_adds w digits s) as (n & evs & T & A & _).
  now rewrite (events_since_app _ _ _ T).
Qed.

(** X3. Whatever the state a handler is called in, the call displays a
    message exactly when the handler is [__syscall188] and the number
    passed, once converted to [int], is 2, and then exactly one; no other
    handler ever displays anything. *)
Theorem only_last_handler_notifies (w : World) (h : Handler) (s : State) (v : Z) :
  notify_count (events_since s (outcome_state (ccall w h s v)))
  = if (is_last h && (wrap32 v =? 2))%bool then 1%nat else 0%nat.
Proof.
  destruct (ccall_adds w h s v) as (evs & T & _ & N).
  now rewrite (events_since_app _ _ _ T).
Qed.

(** ** [log_stored] *)

Section LogStored.

Variable w : World.

Lemma hello_log_stored (s : State) :
  log_stored s = 1 -> log_stored (hello w s) = 1.
Proof.
  intros H. rewrite hello_eq. unfold neutralized.
  destruct (inspector_at w (ticks s)); simpl.
  - destruct (log_stored s =? 1); simpl; exact H.
  - destruct (tampered_at w (ticks s)); simpl; [|reflexivity].
    destruct (log_stored s =? 1); simpl; exact H.
Qed.

Lemma after_check_log_stored (h n : Handler) (r : Wasm.result) (s : State) (v : Z) :
  log_stored s = 1 -> log_stored (outcome_state (after_check w h n r s v)) = 1.
Proof.
  intros H. unfold after_check. destruct r as [x| |]; simpl; auto.
  destruct (x =? 1); simpl; auto. now apply hello_log_stored.
Qed.

Lemma ccall_log_stored (h : Handler) (s : State) (v : Z) :
  log_stored s = 1 -> log_stored (outcome_state (ccall w h s v)) = 1.
Proof.
  intros H. unfold ccall. generalize (wrap32 v). clear v. intros v.
  destruct h; simpl handler.
  - destruct (inspector_at w (ticks s)) eqn:Hi.
    + rewrite syscall80_detected by exact Hi. unfold neutralized. simpl.
      destruct (log_stored s =? 1); simpl; exact H.
    + rewrite syscall80_clean by exact Hi. cbv zeta.
      destruct (g_func_ptr s =? 1); simpl; [|exact H].
      unfold call_me_indirectly. destruct (v =? 1); simpl; [exact H|].
      now apply hello_log_stored.
  - now apply after_check_log_stored.
  - now apply after_check_log_stored.
  - now apply after_check_log_stored.
  - unfold the_end, time. cbv beta iota zeta.
    destruct (sub32 (wrap32 (clock w (ticks s))) (first_press (tick s)) >? 1).
    + destruct (the_end_check v) as [x| |]; cbv beta iota; [|simpl; auto..].
      destruct (x =? 1); [simpl; auto|].
      rewrite the_end_failure_eq. simpl. exact H.
    + cbv beta iota. change (0 =? 1) with false. cbv iota.
      rewrite the_end_failure_eq. simpl. exact H.
  - unfold __syscall12. destruct (syscall12_test v); simpl; [exact H|].
    now apply hello_log_stored.
  - unfold __syscall188. simpl.
    destruct (v =? 2); apply hello_log_stored; exact H.
Qed.

Lemma presses_armed (digits : list Z) :
  forall s : State,
    (is_wrapper (console_log s) = true -> log_stored s = 1) ->
    is_wrapper (console_log (outcome_state (presses w s digits))) = true ->
    log_stored (outcome_state (presses w s digits)) = 1.
Proof.
  induction digits as [|d rest IH]; intros s Inv; [exact Inv|].
  simpl. unfold press.
  destruct (console_log s) as [| |h] eqn:L.
  - apply IH. rewrite L. discriminate.
  - apply IH. rewrite L. discriminate.
  - pose proof (ccall_log_stored h s d (Inv eq_refl)) as S1.
    destruct (ccall w h s d) as [s1|s1|s1|s1]; simpl in S1 |- *;
      try (intros _; exact S1).
    apply IH. intros _. exact S1.
Qed.

Lemma hello_armed (s : State) :
  (is_wrapper (console_log s) = true -> log_stored s = 1) ->
  is_wrapper (console_log (hello w s)) = true ->
  log_stored (hello w s) = 1.
Proof.
  intros Inv. rewrite hello_eq. unfold neutralized.
  destruct (inspector_at w (ticks s)); simpl.
  - destruct (Z.eqb_spec (log_stored s) 1) as [E|E]; simpl; [intros _; exact E|].
    exact Inv.
  - destruct (tampered_at w (ticks s)); simpl; [|reflexivity].
    destruct (Z.eqb_spec (log_stored s) 1) as [E|E]; simpl; [intros _; exact E|].
    exact Inv.
Qed.

End LogStored.

(** X4. Button presses and [hello] keep this invariant: whenever
    [console.log] holds one of the program's wrappers, [log_stored] is 1.
    It holds of the initial state, so once a page is armed the
    [log_stored == 1] tests of [debugger_check] and [hello] never skip the
    restoring of the console. *)
Theorem armed_implies_log_stored (w : World) (s : State) (digits : list Z) :
  (is_wrapper (console_log s) = true -> log_stored s = 1) ->
  (is_wrapper (console_log (outcome_state (presses w s digits))) = true ->
   log_stored (outcome_state (presses w s digits)) = 1)
  /\ (is_wrapper (console_log (hello w s)) = true ->
      log_stored (hello w s) = 1).
Proof.
  intros Inv. split; [now apply presses_armed | now apply hello_armed].
Qed.

Lemma armed_implies_log_stored_witness :
  log_stored (outcome_state (presses slow_world page_loaded [1; 9; 3])) = 1.
Proof.
  apply (proj1 (armed_implies_log_stored slow_world page_loaded [1; 9; 3]
                  (fun _ => eq_refl))).
  reflexivity.
Defined.

(** ** One digit per handler *)

Lemma hello_console_log (w : World) (t : State) :
  console_log (hello w t) = Wrapper Syscall80
  \/ console_log (hello w t) = console_assert t
  \/ console_log (hello w t) = console_log t.
Proof.
  rewrite hello_eq. unfold neutralized.
  destruct (inspector_at w (ticks t)); simpl.
  - destruct (log_stored t =? 1); simpl; auto.
  - destruct (tampered_at w (ticks t)); simpl; auto.
    destruct (log_stored t =? 1); simpl; auto.
Qed.

(** Whatever the guard finds, the reset of a handler before the last does
    not land on the handler that follows it, unless [console.assert] holds
    that one. *)
Lemma reset_does_not_advance (w : World) (t : State) (h : Handler) :
  h <> Syscall188 ->
  console_log t = Wrapper h ->
  console_assert t <> Wrapper (next h) ->
  console_log (hello w t) <> Wrapper (next h).
Proof.
  intros Hh Hlog Hassert.
  destruct (hello_console_log w t) as [E|[E|E]]; rewrite E.
  - destruct h; simpl; try discriminate. contradiction.
  - exact Hassert.
  - rewrite Hlog. destruct h; discriminate.
Qed.

(** X5. Each of the first six handlers lets exactly one [int] through:
    pressed while that handler is installed (for the first with the
    inspector probe clean, for the fifth with the timer gate open), a digit
    installs the following handler if and only if it is the handler's digit
    of 1947482, whatever the guard reports on the reset path, as long as
    [console.assert] does not already hold the following handler. *)
Theorem exactly_one_digit_advances (w : World) (s : State) (h : Handler) (v : Z) :
  h <> Syscall188 ->
  console_log s = Wrapper h ->
  console_assert s <> Wrapper (next h) ->
  int32 v ->
  g_func_ptr s = 1 ->
  (h = Syscall80 -> inspector_at w (ticks s) = false) ->
  (h = TheEnd -> enough_elapsed w s = true) ->
  exists s' : State,
    press w s v = Done s'
    /\ (console_log s' = Wrapper (next h) <-> v = answer h).
Proof.
  intros Hh Hlog Hassert Hv Hptr Hprobe Hgate.
  rewrite (press_at w h) by exact Hlog.
  assert (Hmiss : forall (e : Event) (t : State),
    console_log t = console_log s -> console_assert t = console_assert s ->
    v <> answer h ->
    exists s' : State,
      Done (hello w t) = Done s'
      /\ (console_log s' = Wrapper (next h) <-> v = answer h)).
  { intros e t Hl Ha Hne. eexists. split; [reflexivity|]. split; [|contradiction].
    intros E. exfalso. revert E. apply reset_does_not_advance;
      [exact Hh | now rewrite Hl | now rewrite Ha]. }
  assert (Hhit : forall t : State,
    v = answer h ->
    exists s' : State,
      Done (set_console_log (Wrapper (next h)) t) = Done s'
      /\ (console_log s' = Wrapper (next h) <-> v = answer h)).
  { intros t Heq. eexists. split; [reflexivity|]. split; auto. }
  rewrite ccall_int32 by exact Hv.
  destruct h; simpl handler; simpl answer in *; simpl next in *.
  - rewrite syscall80_clean by auto. cbv zeta. rewrite Hptr.
    change (1 =? 1) with true. cbv iota. unfold call_me_indirectly.
    destruct (Z.eqb_spec v 1).
    + now apply Hhit.
    + now apply (Hmiss EvDebugger).
  - rewrite syscall72_eq by exact Hv. destruct (Z.eqb_spec v 9).
    + now apply Hhit.
    + now apply (Hmiss EvDebugger).
  - rewrite syscall42_eq by exact Hv. destruct (Z.eqb_spec v 4).
    + now apply Hhit.
    + now apply (Hmiss EvDebugger).
  - rewrite syscall18_eq by exact Hv. destruct (Z.eqb_spec v 7).
    + now apply Hhit.
    + now apply (Hmiss EvDebugger).
  - rewrite the_end_slow by auto. destruct (Z.eqb_spec v 4).
    + now apply Hhit.
    + eexists. split; [reflexivity|]. simpl. split; [|contradiction].
      intros E. now contradiction Hassert.
  - rewrite syscall12_eq. destruct (Z.eqb_spec v 8).
    + now apply Hhit.
    + now apply (Hmiss EvDebugger).
  - now contradiction Hh.
Qed.

Lemma exactly_one_digit_advances_witness :
  exists s' : State,
    press slow_world before_the_end 4 = Done s'
    /\ (console_log s' = Wrapper Syscall12 <-> 4 = 4).
Proof.
  apply (exactly_one_digit_advances slow_world before_the_end TheEnd 4).
  - discriminate.
  - reflexivity.
  - discriminate.
  - unfold int32. lia.
  - reflexivity.
  - discriminate.
  - reflexivity.
Defined.

(** ** Resets *)

Lemma guard_clean_probe (w : World) (n : nat) :
  guard_clean w n = true -> inspector_at w n = false.
Proof.
  unfold guard_clean. intros H. apply Bool.andb_true_iff in H as [H _].
  now apply Bool.negb_true_iff in H.
Qed.

(** X6. The reset is idempotent: any run of wrong first digits, however
    long and whatever time passes between the presses, leaves the first
    handler installed and displays nothing, as long as the probe of
    [__syscall80] and the guard of the [hello] that follows find nothing at
    each press. *)
Theorem wrong_first_digits_stay_at_stage1 (w : World) (digits : list Z) :
  Forall (fun d => int32 d /\ d <> 1) digits ->
  forall s : State,
    console_log s = Wrapper Syscall80 ->
    g_func_ptr s = 1 ->
    resets_clean w (ticks s) (List.length digits) = true ->
    exists s' : State,
      presses w s digits = Done s'
      /\ console_log s' = Wrapper Syscall80
      /\ g_func_ptr s' = 1
      /\ notify_count (trace s') = notify_count (trace s).
Proof.
  intros Hwrong. induction Hwrong as [|d rest [Hd32 Hd] _ IH];
    intros s Hlog Hptr Hclean.
  - exists s. repeat split; assumption.
  - cbn [List.length resets_clean] in Hclean.
    apply Bool.andb_true_iff in Hclean as [Hclean Hrest].
    apply Bool.andb_true_iff in Hclean as [Hprobe Hguard].
    apply Bool.negb_true_iff in Hprobe.
    set (t := emit (EvValidate Syscall80 d 0)
                (set_first_press (wrap32 (clock w (S (S (ticks s)))))
                   (tick (probed s)))).
    assert (E : press w s d = Done (hello w t)).
    { rewrite (press_at w Syscall80) by exact Hlog.
      rewrite ccall_int32 by exact Hd32. simpl handler.
      rewrite syscall80_clean by exact Hprobe.
      cbv zeta. rewrite Hptr. change (1 =? 1) with true. cbv iota.
      unfold call_me_indirectly.
      destruct (Z.eqb_spec d 1); [contradiction | reflexivity]. }
    assert (Ht : guard_clean w (ticks t) = true) by exact Hguard.
    destruct (IH (hello w t)) as (s' & P & L & G & N).
    + rewrite hello_clean by exact Ht. reflexivity.
    + rewrite hello_g_func_ptr. exact Hptr.
    + rewrite hello_clean by exact Ht. exact Hrest.
    + exists s'. split; [now rewrite (presses_cons w _ _ _ _ E)|].
      split; [exact L|]. split; [exact G|]. rewrite N.
      rewrite hello_clean by exact Ht. simpl.
      unfold notify_count. rewrite !filter_app, !length_app. simpl. lia.
Qed.

Lemma wrong_first_digits_witness :
  exists s' : State,
    presses ticking_world page_loaded [5; 0; 9; 7] = Done s'
    /\ console_log s' = Wrapper Syscall80
    /\ g_func_ptr s' = 1
    /\ notify_count (trace s') = notify_count (trace page_loaded).
Proof.
  apply (wrong_first_digits_stay_at_stage1 ticking_world [5; 0; 9; 7]).
  - repeat constructor; unfold int32; lia.
  - reflexivity.
  - reflexivity.
  - reflexivity.
Defined.

(** ** What [hello] saves in [console.assert] *)

Lemma wrong_digit_calls_hello (w : World) (s : State) (h : Handler) (v : Z) :
  In h [Syscall72; Syscall42; Syscall18; Syscall12; Syscall188] ->
  int32 v ->
  v <> answer h ->
  ccall w h s v = Done (hello w (emit (EvValidate h v 0) s)).
Proof.
  intros Hin Hv Hne. simpl in Hin. rewrite ccall_int32 by exact Hv.
  destruct Hin as [<-|[<-|[<-|[<-|[<-|[]]]]]]; simpl handler; simpl in Hne.
  - rewrite syscall72_eq by exact Hv.
    destruct (Z.eqb_spec v 9); [contradiction | reflexivity].
  - rewrite syscall42_eq by exact Hv.
    destruct (Z.eqb_spec v 4); [contradiction | reflexivity].
  - rewrite syscall18_eq by exact Hv.
    destruct (Z.eqb_spec v 7); [contradiction | reflexivity].
  - rewrite syscall12_eq.
    destruct (Z.eqb_spec v 8); [contradiction | reflexivity].
  - unfold __syscall188.
    destruct (Z.eqb_spec v 2); [contradiction | reflexivity].
Qed.

(** X7. [hello] saves whatever [console.log] holds in [console.assert],
    also when that is a wrapper of the program.  So after a wrong digit in
    the handlers of digits 2, 3, 4, 6 or 7 has reset the chain, a press
    during which the inspector probe fires does not disarm the page: it
    puts the handler that was interrupted back into [console.log], and the
    visitor resumes there, whatever was pressed. *)
Theorem detection_resumes_interrupted_stage
        (w : World) (s : State) (h : Handler) (v d : Z) :
  In h [Syscall72; Syscall42; Syscall18; Syscall12; Syscall188] ->
  console_log s = Wrapper h ->
  int32 v ->
  v <> answer h ->
  guard_clean w (ticks s) = true ->
  inspector_at w (2 + ticks s) = true ->
  exists s' : State,
    presses w s [v; d] = Done s'
    /\ console_log s' = Wrapper h
    /\ console_assert s' = Wrapper h
    /\ events_since s s'
       = [EvValidate h v 0; EvDebugger; EvSourceCompare true; EvDebugger].
Proof.
  intros Hin Hlog Hv Hne Hguard Hprobe.
  assert (E1 : press w s v = Done (hello w (emit (EvValidate h v 0) s))).
  { rewrite (press_at w h) by exact Hlog. now apply wrong_digit_calls_hello. }
  rewrite (presses_cons w _ _ _ _ E1).
  rewrite hello_clean by exact Hguard.
  match goal with
  | |- context [presses w ?t [d]] =>
      assert (E2 : press w t d = Done (neutralized (probed t)))
  end.
  { rewrite (press_at w Syscall80) by reflexivity. unfold ccall.
    simpl handler. apply syscall80_detected. exact Hprobe. }
  rewrite (presses_cons w _ _ _ _ E2).
  eexists. split; [reflexivity|]. unfold neutralized. simpl.
  split; [exact Hlog|]. split; [exact Hlog|].
  apply events_since_app. simpl. now rewrite <- !app_assoc.
Qed.

Lemma detection_resumes_witness :
  exists s' : State,
    presses inspected_world
      {| first_press := 1000; g_func_ptr := 1; log_stored := 1;
         console_log := Wrapper Syscall18; console_assert := NativeLog;
         ticks := 0; trace := [] |} [3; 1] = Done s'
    /\ console_log s' = Wrapper Syscall18.
Proof.
  destruct (detection_resumes_interrupted_stage inspected_world
              {| first_press := 1000; g_func_ptr := 1; log_stored := 1;
                 console_log := Wrapper Syscall18; console_assert := NativeLog;
                 ticks := 0; trace := [] |} Syscall18 3 1)
    as (s' & P & L & _).
  - simpl. tauto.
  - reflexivity.
  - unfold int32. lia.
  - simpl. lia.
  - reflexivity.
  - reflexivity.
  - exists s'. split; [exact P | exact L].
Defined.

Lemma second_round_reached :
  presses slow_world page_loaded [1; 9; 4; 7; 4; 3; 1; 9; 4; 7] = Done second_round.
Proof. vm_compute. reflexivity. Qed.

(** X8. For the same reason the fifth handler stops guarding anything once
    a wrong sixth digit has made [hello] save the wrapper of [__syscall12]:
    from then on every press that reaches [the_end] installs
    [__syscall12], whatever the digit and however little time has passed,
    since the failure branch restores exactly that wrapper. *)
Theorem the_end_open_after_sixth_digit_reset (w : World) (s : State) (v : Z) :
  console_log s = Wrapper TheEnd ->
  console_assert s = Wrapper Syscall12 ->
  exists s' : State,
    press w s v = Done s' /\ console_log s' = Wrapper Syscall12.
Proof.
  intros Hlog Hassert.
  rewrite (press_at w TheEnd) by exact Hlog. unfold ccall.
  generalize (wrap32 v). clear v. intros v. simpl handler.
  destruct (enough_elapsed w s) eqn:Hgate.
  - unfold enough_elapsed in Hgate. unfold the_end, time. cbv beta iota zeta.
    change (first_press (tick s)) with (first_press s).
    rewrite Hgate, the_end_check_returns. cbv beta iota.
    destruct ((if u32 v =? u32 4 then 1 else 0) =? 1).
    + eexists. split; reflexivity.
    + rewrite the_end_failure_eq. eexists. split; [reflexivity | exact Hassert].
  - rewrite the_end_fast by exact Hgate.
    eexists. split; [reflexivity | exact Hassert].
Qed.

Lemma the_end_open_witness :
  exists s' : State,
    press slow_world second_round 0 = Done s'
    /\ console_log s' = Wrapper Syscall12.
Proof.
  apply (the_end_open_after_sixth_digit_reset slow_world second_round 0);
    reflexivity.
Defined.

(** ** The timer gate *)

(** X9. With clock readings that fit an [int] and do not run backwards,
    the timer gate of [the_end] needs two whole seconds: the correct digit
    4 installs [__syscall12] if and only if the clock read by [the_end] is
    at least [first_press + 2]; one second is treated like none. *)
Theorem the_end_needs_two_seconds (w : World) (s : State) :
  console_log s = Wrapper TheEnd ->
  console_assert s <> Wrapper Syscall12 ->
  0 <= first_press s <= clock w (ticks s) ->
  clock w (ticks s) < 2147483648 ->
  exists s' : State,
    press w s 4 = Done s'
    /\ (console_log s' = Wrapper Syscall12
        <-> first_press s + 2 <= clock w (ticks s)).
Proof.
  intros Hlog Hassert Hfp Hclock.
  assert (Hsub : sub32 (wrap32 (clock w (ticks s))) (first_press s)
                 = clock w (ticks s) - first_press s).
  { unfold sub32. rewrite !wrap32_small; unfold int32; try lia.
    rewrite wrap32_small; unfold int32; lia. }
  rewrite (press_at w TheEnd) by exact Hlog. enter_handler.
  destruct (enough_elapsed w s) eqn:Hgate.
  - rewrite the_end_slow by (auto; unfold int32; lia).
    change (4 =? 4) with true. cbv iota.
    eexists. split; [reflexivity|]. split; [intros _ | reflexivity].
    unfold enough_elapsed in Hgate. rewrite Hsub in Hgate.
    apply Z.gtb_lt in Hgate. lia.
  - rewrite the_end_fast by exact Hgate.
    eexists. split; [reflexivity|]. simpl. split.
    + intros E. now contradiction Hassert.
    + intros Hge. unfold enough_elapsed in Hgate. rewrite Hsub in Hgate.
      destruct (Z.gtb_spec (clock w (ticks s) - first_press s) 1);
        [discriminate | lia].
Qed.

Lemma the_end_needs_two_seconds_witness :
  exists s' : State,
    press slow_world before_the_end 4 = Done s'
    /\ (console_log s' = Wrapper Syscall12 <-> 1000 + 2 <= 1005).
Proof.
  apply (the_end_needs_two_seconds slow_world before_the_end).
  - reflexivity.
  - discriminate.
  - simpl. lia.
  - simpl. lia.
Defined.

(** ** Start-up *)

Lemma hello_launched (w : World) :
  hello w (set_g_func_ptr 1 initial)
  = if guard_clean w 0 then page_loaded
    else if inspector_at w 0
         then {| first_press := 0; g_func_ptr := 1; log_stored := 0;
                 console_log := NativeLog; console_assert := NativeAssert;
                 ticks := 2; trace := [EvDebugger] |}
         else {| first_press := 0; g_func_ptr := 1; log_stored := 0;
                 console_log := NativeLog; console_assert := NativeAssert;
                 ticks := 2; trace := [EvDebugger; EvSourceCompare false] |}.
Proof.
  rewrite hello_eq. unfold guard_clean.
  change (ticks (set_g_func_ptr 1 initial)) with 0%nat.
  destruct (inspector_at w 0); [reflexivity|].
  destruct (tampered_at w 0); reflexivity.
Qed.

(** X10. A launch that violates the contract (an argument count other than
    one, or a program name other than [./this.program]) exits without
    setting [g_func_ptr].  Its snippet assigns [console.assert] to
    [console.log] without looking at [log_stored]: launched on the globals
    as they are initialised, it leaves the browser's [console.assert] in
    [console.log]. *)
Theorem launch_violation_exits (p_argc : Z) (argv0 : string) :
  p_argc <> 1 \/ argv0 <> program_name ->
  (exists s' : State,
      boot p_argc argv0 = Exited s'
      /\ g_func_ptr s' = 0
      /\ log_stored s' = 0
      /\ console_log s' = NativeAssert
      /\ trace s' = [EvExit])
  /\ (forall s : State,
         exists s' : State,
           main s p_argc argv0 = Exited s'
           /\ g_func_ptr s' = g_func_ptr s
           /\ console_log s' = console_assert s
           /\ events_since s s' = [EvExit]).
Proof.
  intros Hbad.
  assert (Hcond : (negb (p_argc =? 1) || negb (String.eqb argv0 program_name))%bool
                  = true).
  { destruct (Z.eqb_spec p_argc 1) as [E1|E1]; [|reflexivity].
    destruct (String.eqb_spec argv0 program_name) as [E2|E2]; [|reflexivity].
    destruct Hbad; contradiction. }
  split.
  - unfold boot, main. rewrite Hcond. eexists. split; [reflexivity|].
    repeat split.
  - intros s. unfold main. rewrite Hcond. eexists. split; [reflexivity|].
    split; [reflexivity|]. split; [reflexivity|]. now apply events_since_app.
Qed.

Lemma launch_violation_witness :
  exists s' : State,
    boot 2 program_name = Exited s'
    /\ g_func_ptr s' = 0
    /\ console_log s' = NativeAssert.
Proof.
  destruct (launch_violation_exits 2 program_name) as ((s' & E & G & _ & L & _) & _).
  - left. lia.
  - exists s'. split; [exact E|]. split; [exact G | exact L].
Defined.

(** X11. A regular launch does not arm the page: [main] sets [g_func_ptr]
    and nothing else, [console.log] stays the browser's function and no
    button press reaches the program, whatever is pressed.  The wrapper of
    [__syscall80] is installed by [hello] only; run on the launched page it
    gives the armed page when the guard finds nothing, and leaves the
    browser's function otherwise. *)
Theorem launch_alone_does_not_arm (w : World) (digits : list Z) :
  exists s0 : State,
    boot 1 program_name = Done s0
    /\ s0 = set_g_func_ptr 1 initial
    /\ console_log s0 = NativeLog
    /\ session w digits = Done s0
    /\ (if guard_clean w 0 then hello w s0 = page_loaded
        else console_log (hello w s0) = NativeLog
             /\ log_stored (hello w s0) = 0).
Proof.
  exists (set_g_func_ptr 1 initial).
  split; [reflexivity|]. split; [reflexivity|]. split; [reflexivity|].
  split.
  - unfold session. change (boot 1 program_name)
      with (Done (set_g_func_ptr 1 initial)).
    apply presses_native. left. reflexivity.
  - rewrite hello_launched. destruct (guard_clean w 0); [reflexivity|].
    destruct (inspector_at w 0); split; reflexivity.
Qed.

(** ** The digit tests *)

(** X12. The bit test of [__syscall12] isolates 8 among all integers,
    negative ones included: it holds for 8 and for nothing else. *)
Theorem syscall12_accepts_only_8 (v : Z) :
  syscall12_test v = true <-> v = 8.
Proof.
  rewrite syscall12_test_spec. apply Z.eqb_eq.
Qed.

(** X13. The embedded modules are the functions their source comments
    give: on every [int], the payloads of [__syscall72], [__syscall42],
    [__syscall18] (once deobfuscated by the C loop) and [the_end] (once
    decoded through [lolwat]) return 1 for 9, 4, 7 and 4 respectively and 0
    for anything else, and [__lol_wasm] traps on every argument. *)
Theorem payloads_test_their_digit (v : Z) :
  int32 v ->
  Wasm.invoke Payload.wasm72 "oh_no" v = Wasm.Returned (if v =? 9 then 1 else 0)
  /\ Wasm.invoke (read_c_array Payload.wasm42) "_oh_no" v
     = Wasm.Returned (if v =? 4 then 1 else 0)
  /\ Wasm.invoke (read_c_array (deobfuscate 0xaa Payload.wasm18)) "oh_no" v
     = Wasm.Returned (if v =? 7 then 1 else 0)
  /\ the_end_check v = Wasm.Returned (if v =? 4 then 1 else 0)
  /\ Wasm.invoke (read_c_array Payload.__lol_wasm) "_stage_one" v
     = Wasm.TrapExecuted.
Proof.
  intros Hv.
  split; [now apply invoke_wasm72|].
  split; [now apply invoke_wasm42|].
  split; [now apply invoke_wasm18|].
  split; [now apply the_end_check_spec | apply invoke_lol_wasm].
Qed.

Lemma payloads_test_their_digit_witness :
  Wasm.invoke Payload.wasm72 "oh_no" (-9) = Wasm.Returned 0
  /\ the_end_check 4 = Wasm.Returned 1.
Proof.
  destruct (payloads_test_their_digit (-9)) as (H72 & _);
    [unfold int32; lia|].
  destruct (payloads_test_their_digit 4) as (_ & _ & _ & HE & _);
    [unfold int32; lia|].
  split; [exact H72 | exact HE].
Defined.

(** ** The two decoders *)

Lemma xor_char_lxor (key b : Z) :
  byte b -> byte key -> xor_char key b = Z.lxor b key.
Proof.
  intros Hb Hk. rewrite xor_char_mask. apply Z.bits_inj'. intros n Hn.
  rewrite mask_bits by exact Hn. rewrite !Z.lxor_spec.
  destruct (Z.ltb_spec n 8) as [Hlt|Hge].
  - rewrite Bool.andb_true_r, sext8_low_bits by lia. reflexivity.
  - rewrite Bool.andb_false_r.
    rewrite (byte_high_bits b n Hb Hge), (byte_high_bits key n Hk Hge).
    reflexivity.
Qed.

Lemma deobfuscate_bytes (key : Z) (bs : list Z) :
  Forall byte (deobfuscate key bs).
Proof.
  unfold deobfuscate. induction bs as [|b l IH]; simpl; constructor;
    [apply xor_char_byte | exact IH].
Qed.

(** X14. The decoding module of [the_end] and the C loop of [__syscall18]
    are the same codec: run over any sequence of bytes, [lolwat] gives what
    the loop gives with key [0xbb], and run over its own output it gives
    the sequence back. *)
Theorem oracle_agrees_with_c_loop (bs : list Z) :
  Forall byte bs ->
  exists lolwat : Wasm.func,
    Wasm.load Payload.xor_decode "lolwat" = Some lolwat
    /\ oracle_decode lolwat bs = Some (deobfuscate 0xbb bs)
    /\ oracle_decode lolwat (deobfuscate 0xbb bs) = Some bs.
Proof.
  intros Hbs. eexists. split; [apply load_xor_decode|].
  assert (Hone : forall l : list Z, Forall byte l ->
    oracle_decode
      {| Wasm.nparams := 1; Wasm.nlocals := 0;
         Wasm.body := [Wasm.LocalGet 0; Wasm.I32Const 187; Wasm.I32Xor] |} l
    = Some (deobfuscate 0xbb l)).
  { induction 1 as [|b l Hb _ IH]; [reflexivity|].
    pose proof (lolwat_is_xor b Hb) as Hcall. rewrite load_xor_decode in Hcall.
    cbn [oracle_decode]. rewrite Hcall, IH. simpl. do 2 f_equal.
    rewrite <- (xor_char_lxor 187 b Hb) by (unfold byte; lia).
    unfold uint8. apply Z.mod_small. apply xor_char_byte. }
  split; [now apply Hone|].
  rewrite Hone by apply deobfuscate_bytes.
  f_equal. unfold deobfuscate.
  induction Hbs as [|b l Hb _ IH]; simpl; [reflexivity|].
  now rewrite xor_char_involutive, IH.
Qed.

Lemma oracle_agrees_witness :
  exists lolwat : Wasm.func,
    Wasm.load Payload.xor_decode "lolwat" = Some lolwat
    /\ oracle_decode lolwat [187; 218; 200; 214] = Some (deobfuscate 0xbb [187; 218; 200; 214])
    /\ oracle_decode lolwat (deobfuscate 0xbb [187; 218; 200; 214])
       = Some [187; 218; 200; 214].
Proof.
  apply (oracle_agrees_with_c_loop [187; 218; 200; 214]).
  repeat constructor; unfold byte; lia.
Defined.

(** X15. Handing a C array to JavaScript loses nothing: reading each cell
    with [getValue] (a signed [i8]) and storing it into the [Uint8Array]
    gives back the bytes of the array, and in particular exactly what the
    obfuscation loop wrote, which is a sequence of bytes of the same length
    whatever the key. *)
Theorem c_array_handover_lossless (key : Z) (bs : list Z) :
  (Forall byte bs -> read_c_array bs = bs)
  /\ read_c_array (deobfuscate key bs) = deobfuscate key bs
  /\ Forall byte (deobfuscate key bs)
  /\ List.length (deobfuscate key bs) = List.length bs.
Proof.
  split; [apply read_c_array_bytes|].
  split; [apply read_c_array_bytes, deobfuscate_bytes|].
  split; [apply deobfuscate_bytes|].
  unfold deobfuscate. apply length_map.
Qed.

Lemma c_array_handover_witness :
  read_c_array [0; 97; 170; 255] = [0; 97; 170; 255].
Proof.
  apply (proj1 (c_array_handover_lossless 0xaa [0; 97; 170; 255])).
  repeat constructor; unfold byte; lia.
Defined.

(** ** Where [console.log] can go *)

Section Transitions.

Variable w : World.

Lemma hello_transition (h : Handler) (s t : State) :
  console_log t = console_log s ->
  console_assert t = console_assert s ->
  transition_of h s (hello w t).
Proof.
  intros Hl Ha. unfold transition_of.
  destruct (hello_console_log w t) as [E|[E|E]]; rewrite E; auto.
Qed.

Lemma after_check_transition (h : Handler) (r : Wasm.result) (s : State) (v : Z) :
  transition_of h s (outcome_state (after_check w h (next h) r s v)).
Proof.
  unfold after_check. destruct r as [x| |]; simpl outcome_state;
    [|left; reflexivity..].
  destruct (x =? 1); simpl outcome_state.
  - right. left. reflexivity.
  - now apply hello_transition.
Qed.

Lemma the_end_transition (s : State) (v : Z) :
  transition_of TheEnd s (outcome_state (the_end w s v)).
Proof.
  unfold the_end, time. cbv beta iota zeta.
  destruct (sub32 (wrap32 (clock w (ticks s))) (first_press (tick s)) >? 1).
  - destruct (the_end_check v) as [x| |]; cbv beta iota;
      [|left; reflexivity..].
    destruct (x =? 1); simpl outcome_state.
    + right. left. reflexivity.
    + rewrite the_end_failure_eq. right. right. right. reflexivity.
  - cbv beta iota. change (0 =? 1) with false. cbv iota.
    simpl outcome_state. rewrite the_end_failure_eq.
    right. right. right. reflexivity.
Qed.

Lemma syscall80_transition (s : State) (v : Z) :
  transition_of Syscall80 s (outcome_state (__syscall80 w s v)).
Proof.
  destruct (inspector_at w (ticks s)) eqn:H.
  - rewrite syscall80_detected by exact H. simpl outcome_state.
    unfold neutralized, transition_of. simpl.
    destruct (log_stored s =? 1); simpl; auto.
  - rewrite syscall80_clean by exact H. cbv zeta.
    destruct (g_func_ptr s =? 1); simpl outcome_state; [|left; reflexivity].
    unfold call_me_indirectly. destruct (v =? 1).
    + right. left. reflexivity.
    + now apply hello_transition.
Qed.

Lemma hello_saved (s t : State) :
  console_log t = console_log s ->
  console_assert t = console_assert s ->
  saved_of s (hello w t).
Proof.
  intros Hl Ha. unfold saved_of. rewrite hello_eq. unfold neutralized.
  destruct (inspector_at w (ticks t)); simpl.
  - destruct (log_stored t =? 1); simpl; auto.
  - destruct (tampered_at w (ticks t)); simpl; auto.
    destruct (log_stored t =? 1); simpl; auto.
Qed.

Lemma after_check_saved (h n : Handler) (r : Wasm.result) (s : State) (v : Z) :
  saved_of s (outcome_state (after_check w h n r s v)).
Proof.
  unfold after_check. destruct r as [x| |]; simpl outcome_state;
    [|left; reflexivity..].
  destruct (x =? 1); simpl outcome_state; [left; reflexivity|].
  now apply hello_saved.
Qed.

Lemma ccall_saved (h : Handler) (s : State) (v : Z) :
  saved_of s (outcome_state (ccall w h s v)).
Proof.
  unfold ccall. generalize (wrap32 v). clear v. intros v.
  destruct h; simpl handler.
  - destruct (inspector_at w (ticks s)) eqn:H.
    + rewrite syscall80_detected by exact H. simpl outcome_state.
      unfold neutralized, saved_of. simpl.
      destruct (log_stored s =? 1); simpl; auto.
    + rewrite syscall80_clean by exact H. cbv zeta.
      destruct (g_func_ptr s =? 1); simpl outcome_state; [|left; reflexivity].
      unfold call_me_indirectly. destruct (v =? 1); [left; reflexivity|].
      now apply hello_saved.
  - apply after_check_saved.
  - apply after_check_saved.
  - apply after_check_saved.
  - unfold the_end, time. cbv beta iota zeta.
    destruct (sub32 (wrap32 (clock w (ticks s))) (first_press (tick s)) >? 1).
    + destruct (the_end_check v) as [x| |]; cbv beta iota;
        [|left; reflexivity..].
      destruct (x =? 1); simpl outcome_state; [left; reflexivity|].
      rewrite the_end_failure_eq. left. reflexivity.
    + cbv beta iota. change (0 =? 1) with false. cbv iota.
      simpl outcome_state. rewrite the_end_failure_eq. left. reflexivity.
  - unfold __syscall12. destruct (syscall12_test v); simpl outcome_state;
      [left; reflexivity|].
    now apply hello_saved.
  - unfold __syscall188. simpl outcome_state.
    destruct (v =? 2); now apply hello_saved.
Qed.

End Transitions.

(** X16. The chain cannot be entered in the middle: a press handled by
    handler [h] leaves in [console.log] what was there, or the handler that
    follows [h], or the first handler, or what [console.assert] held; and
    it leaves in [console.assert] what was there or what [console.log]
    held.  No other handler is ever installed. *)
Theorem hook_transitions (w : World) (s : State) (h : Handler) (v : Z) :
  console_log s = Wrapper h ->
  (console_log (outcome_state (press w s v)) = Wrapper h
   \/ console_log (outcome_state (press w s v)) = Wrapper (next h)
   \/ console_log (outcome_state (press w s v)) = Wrapper Syscall80
   \/ console_log (outcome_state (press w s v)) = console_assert s)
  /\ (console_assert (outcome_state (press w s v)) = console_assert s
      \/ console_assert (outcome_state (press w s v)) = Wrapper h).
Proof.
  intros Hlog. rewrite (press_at w h) by exact Hlog. rewrite <- Hlog.
  split; [|apply ccall_saved].
  change (transition_of h s (outcome_state (ccall w h s v))).
  unfold ccall. generalize (wrap32 v). clear v. intros v.
  destruct h; simpl handler.
  - apply syscall80_transition.
  - apply (after_check_transition w Syscall72).
  - apply (after_check_transition w Syscall42).
  - apply (after_check_transition w Syscall18).
  - apply the_end_transition.
  - unfold __syscall12. destruct (syscall12_test v); simpl outcome_state.
    + right. left. reflexivity.
    + now apply hello_transition.
  - unfold __syscall188. simpl outcome_state.
    destruct (v =? 2); now apply hello_transition.
Qed.

Lemma hook_transitions_witness :
  (console_log (outcome_state (press slow_world second_round 0)) = Wrapper TheEnd
   \/ console_log (outcome_state (press slow_world second_round 0))
      = Wrapper Syscall12
   \/ console_log (outcome_state (press slow_world second_round 0))
      = Wrapper Syscall80
   \/ console_log (outcome_state (press slow_world second_round 0))
      = Wrapper Syscall12)
  /\ (console_assert (outcome_state (press slow_world second_round 0))
      = Wrapper Syscall12
      \/ console_assert (outcome_state (press slow_world second_round 0))
         = Wrapper TheEnd).
Proof.
  apply (hook_transitions slow_world second_round TheEnd 0). reflexivity.
Defined.
